(** * Smart-Gateway: forward-auth gateway and scope-gated JSON-RPC dispatch

    A shallow embedding of the three Python programs of the repository

      - [auth-service/auth_service.py]            (module [AuthService])
      - [mcp-calculator-server/calculator_server.py] (module [CalculatorServer])
      - [mcp-weather-server/weather_server.py]     (module [WeatherServer])

    over a small model of the Python values they manipulate (module [Py]):
    JSON values, dictionaries, exceptions as an error monad, binary64 floats.
    The second half of the file states and proves the properties of the
    specification against these definitions. *)

From Stdlib Require Import ZArith List String Ascii Bool Lia.
From Stdlib Require Import DecimalString.
From Stdlib Require Import Floats.SpecFloat.
Import ListNotations.

Set Warnings "-register-all".

Local Open Scope list_scope.
Local Open Scope string_scope.

(* ================================================================== *)
(** * Python values                                                    *)
(* ================================================================== *)

Module Py.

(** ** Characters that a string literal cannot hold *)

Definition dq : string := String (ascii_of_nat 34) EmptyString.
Definition nl : string := String (ascii_of_nat 10) EmptyString.
Definition LF : ascii := ascii_of_nat 10.
Definition CR : ascii := ascii_of_nat 13.
Definition SPACE : ascii := ascii_of_nat 32.

(** ** Floats: IEEE 754 binary64, as CPython's [float] *)

Definition float := spec_float.
Definition prec : Z := 53.
Definition emax : Z := 1024.

Definition float_zero : float := S754_zero false.
Definition float_add : float -> float -> float := SFadd prec emax.
Definition float_sub : float -> float -> float := SFsub prec emax.
Definition float_mul : float -> float -> float := SFmul prec emax.
Definition float_div : float -> float -> float := SFdiv prec emax.
Definition float_sqrt : float -> float := SFsqrt prec emax.
Definition float_eqb : float -> float -> bool := SFeqb.
Definition float_ltb : float -> float -> bool := SFltb.

(** Nearest binary64 of an integer (round half to even). *)
Definition float_of_Z (z : Z) : float := binary_normalize prec emax z 0 false.

(** ** JSON values, as [json.loads] / [response.json()] produce them *)

Inductive json : Type :=
| JNull
| JBool (b : bool)
| JInt (z : Z)
| JFloat (f : float)
| JStr (s : string)
| JArr (l : list json)
| JObj (d : list (string * json)).

(** A Python [dict] with string keys, in insertion order. *)
Definition dict : Type := list (string * json).

Fixpoint dict_get (d : dict) (k : string) : option json :=
  match d with
  | [] => None
  | (k', v) :: d' => if String.eqb k k' then Some v else dict_get d' k
  end.

Definition has_key (d : dict) (k : string) : bool :=
  match dict_get d k with Some _ => true | None => false end.

(** [type(v).__name__] *)
Definition type_name (v : json) : string :=
  match v with
  | JNull => "NoneType"
  | JBool _ => "bool"
  | JInt _ => "int"
  | JFloat _ => "float"
  | JStr _ => "str"
  | JArr _ => "list"
  | JObj _ => "dict"
  end.

(** [bool(v)] *)
Definition truthy (v : json) : bool :=
  match v with
  | JNull => false
  | JBool b => b
  | JInt z => negb (Z.eqb z 0)
  | JFloat f => negb (float_eqb f float_zero)
  | JStr s => negb (String.eqb s EmptyString)
  | JArr l => match l with [] => false | _ => true end
  | JObj d => match d with [] => false | _ => true end
  end.

(** ** Exceptions and the error monad *)

Inductive exn : Type :=
| AttributeError (msg : string)
| TypeError (msg : string)
| ValueError (msg : string)
| OverflowError (msg : string)
| OtherError (cls : string) (msg : string).

(** [str(e)] *)
Definition str_exn (e : exn) : string :=
  match e with
  | AttributeError m | TypeError m | ValueError m | OverflowError m => m
  | OtherError _ m => m
  end.

Inductive result (A : Type) : Type :=
| Ok (a : A)
| Raise (e : exn).

Arguments Ok {A} a.
Arguments Raise {A} e.

Definition bind {A B : Type} (m : result A) (k : A -> result B) : result B :=
  match m with
  | Ok a => k a
  | Raise e => Raise e
  end.

Declare Scope py_scope.
Delimit Scope py_scope with py.
Notation "x <- m ;; k" := (bind m (fun x => k))
  (at level 100, m at next level, right associativity) : py_scope.

(** ** Strings *)

(** [s.startswith(p)] *)
Definition startswith (s p : string) : bool := String.prefix p s.

(** [s[n:]] *)
Fixpoint str_drop (n : nat) (s : string) : string :=
  match n, s with
  | O, _ => s
  | S n', String _ s' => str_drop n' s'
  | S _, EmptyString => EmptyString
  end.

(** [s.split(sep)] for a one-character separator: every occurrence of
    [sep] cuts, so the result has one more item than [s] has separators. *)
Fixpoint split (sep : ascii) (s : string) : list string :=
  match s with
  | EmptyString => [EmptyString]
  | String c s' =>
      if Ascii.eqb c sep then EmptyString :: split sep s'
      else match split sep s' with
           | h :: t => String c h :: t
           | [] => [String c EmptyString]
           end
  end.

(** [x in l] for a list of strings. *)
Definition str_in (x : string) (l : list string) : bool :=
  existsb (String.eqb x) l.

(** [sep.join(l)] for a list of strings. *)
Definition join (sep : string) (l : list string) : string := String.concat sep l.

Fixpoint str_contains_char (c : ascii) (s : string) : bool :=
  match s with
  | EmptyString => false
  | String c' s' => Ascii.eqb c c' || str_contains_char c s'
  end.

(** Decimal rendering of an integer, as [str(int)]. *)
Definition str_of_Z (z : Z) : string := NilZero.string_of_int (Z.to_int z).
Definition str_of_nat (n : nat) : string := str_of_Z (Z.of_nat n).

(** A UTF-8 continuation byte, [10xxxxxx]. *)
Definition is_continuation (c : ascii) : bool :=
  Nat.leb 128 (nat_of_ascii c) && Nat.ltb (nat_of_ascii c) 192.

(** The characters of a string, as iterating a [str] yields them: one
    item per code point.  Strings are held as their UTF-8 bytes, so an
    item is a byte together with the continuation bytes that follow it. *)
Fixpoint chars (s : string) : list string :=
  match s with
  | EmptyString => []
  | String c s' =>
      match s' with
      | EmptyString => [String c EmptyString]
      | String c' _ =>
          if is_continuation c' then
            match chars s' with
            | g :: gs => String c g :: gs
            | [] => [String c EmptyString]
            end
          else String c EmptyString :: chars s'
      end
  end.

(** ** What the model leaves to the interpreter and its libraries

    Text-to-float parsing, [math.pow], the [repr] of floats, strings and
    containers, and the wall clock are not re-implemented: every function
    that needs one of them takes a [Runtime]. *)

Record Runtime : Type := {
  (** [float(s)] for a string; [None] when CPython raises [ValueError] *)
  float_of_str : string -> option float;
  (** [math.pow(x, y)], which raises on domain and range errors *)
  math_pow : float -> float -> result float;
  (** [repr(x)] of a float *)
  repr_float : float -> string;
  (** [repr(v)] of a string, a list or a dict *)
  repr_other : json -> string;
  (** [datetime.now().strftime(fmt)] *)
  strftime_now : string -> string
}.

(** [repr(v)] *)
Definition py_repr (rt : Runtime) (v : json) : string :=
  match v with
  | JNull => "None"
  | JBool true => "True"
  | JBool false => "False"
  | JInt z => str_of_Z z
  | JFloat f => repr_float rt f
  | JStr _ | JArr _ | JObj _ => repr_other rt v
  end.

(** [str(v)], which is also what an f-string field [{v}] renders. *)
Definition py_str (rt : Runtime) (v : json) : string :=
  match v with
  | JStr s => s
  | _ => py_repr rt v
  end.

(** [v == s] for a string literal [s] *)
Definition str_is (v : json) (s : string) : bool :=
  match v with
  | JStr s' => String.eqb s' s
  | _ => false
  end.

(** [v.get(k, default)]: only a dict has the method. *)
Definition py_get (v : json) (k : string) (default : json) : result json :=
  match v with
  | JObj d => Ok (match dict_get d k with Some x => x | None => default end)
  | _ => Raise (AttributeError
                  ("'" ++ type_name v ++ "' object has no attribute 'get'"))
  end.

(** The items of [sep.join(...)] must all be [str]; the first that is not
    raises [TypeError]. *)
Fixpoint join_items (i : nat) (l : list json) : result (list string) :=
  match l with
  | [] => Ok []
  | JStr s :: t => bind (join_items (S i) t) (fun rest => Ok (s :: rest))
  | x :: _ => Raise (TypeError ("sequence item " ++ str_of_nat i
                                ++ ": expected str instance, "
                                ++ type_name x ++ " found"))
  end.

(** [sep.join(v)]: a list is joined item by item, a string character by
    character, a dict over its keys; anything else is not iterable. *)
Definition py_join (sep : string) (v : json) : result string :=
  match v with
  | JArr l => bind (join_items 0 l) (fun items => Ok (join sep items))
  | JStr s => Ok (join sep (chars s))
  | JObj d => Ok (join sep (map fst d))
  | _ => Raise (TypeError "can only join an iterable")
  end.

(** [float(v)] *)
Definition py_float (rt : Runtime) (v : json) : result float :=
  match v with
  | JFloat f => Ok f
  | JInt z =>
      match float_of_Z z with
      | S754_infinity _ => Raise (OverflowError "int too large to convert to float")
      | f => Ok f
      end
  | JBool b => Ok (float_of_Z (if b then 1 else 0))
  | JStr s =>
      match float_of_str rt s with
      | Some f => Ok f
      | None => Raise (ValueError ("could not convert string to float: "
                                   ++ py_repr rt v))
      end
  | JNull | JArr _ | JObj _ =>
      Raise (TypeError ("float() argument must be a string or a real number, not '"
                        ++ type_name v ++ "'"))
  end.

End Py.

(* ================================================================== *)
(** * auth-service/auth_service.py                                     *)
(* ================================================================== *)

Module AuthService.
Import Py.
Local Open Scope py_scope.

(** A Flask response: status, JSON body, and the headers in the order
    they were set. *)
Record Response : Type := {
  status_code : Z;
  body : json;
  headers : list (string * string)
}.

(** [jsonify(obj)]: a 200 response carrying [obj]. *)
Definition jsonify (obj : json) : Response :=
  {| status_code := 200;
     body := obj;
     headers := [("Content-Type", "application/json")] |}.

(** [response.status_code = n] *)
Definition set_status (r : Response) (n : Z) : Response :=
  {| status_code := n; body := body r; headers := headers r |}.

(** A header value may hold neither CR nor LF. *)
Definition header_safe (v : string) : bool :=
  negb (str_contains_char LF v || str_contains_char CR v).

(** [response.headers[key] = value].  werkzeug's [Headers.__setitem__]
    turns a value that is not a [str] into [str(value)], raises
    [ValueError] on a value with a newline character, and replaces any
    header already stored under the key. *)
Definition set_header (rt : Runtime) (r : Response) (key : string) (value : json)
  : result Response :=
  let v := py_str rt value in
  if header_safe v then
    Ok {| status_code := status_code r;
          body := body r;
          headers := filter (fun kv => negb (String.eqb (fst kv) key)) (headers r)
                     ++ [(key, v)] |}
  else Raise (ValueError "Header values must not contain newline characters.").

(** [response.headers.get(key)] *)
Fixpoint header (hs : list (string * string)) (key : string) : option string :=
  match hs with
  | [] => None
  | (k, v) :: hs' => if String.eqb k key then Some v else header hs' key
  end.

Section Gateway.

Variable rt : Runtime.

(** Keycloak configuration, read from the environment at start-up. *)
Variable KEYCLOAK_URL : string.
Variable KEYCLOAK_REALM : string.

(** [introspect_token(token)]: the POST to Keycloak's introspection
    endpoint.  It returns the decoded JSON answer, or raises (connection
    error, timeout, non-2xx status, undecodable body). *)
Variable introspect_token : string -> result json.

Definition discovery_url : string :=
  KEYCLOAK_URL ++ "/realms/" ++ KEYCLOAK_REALM ++ "/.well-known/openid-configuration".

Definition auth_url : string :=
  KEYCLOAK_URL ++ "/realms/" ++ KEYCLOAK_REALM ++ "/protocol/openid-connect/auth".

(** The challenge written by both rejection paths; only the
    [error_description] differs between them. *)
Definition www_authenticate (description : string) : string :=
  "Bearer realm=" ++ dq ++ "mcp-gateway" ++ dq ++ ", "
  ++ "error=" ++ dq ++ "invalid_token" ++ dq ++ ", "
  ++ "error_description=" ++ dq ++ description ++ dq ++ ", "
  ++ "authorization_uri=" ++ dq ++ auth_url ++ dq ++ ", "
  ++ "discovery_uri=" ++ dq ++ discovery_url ++ dq.

Definition unauthorized_body (description : string) : json :=
  JObj [("error", JStr "unauthorized");
        ("error_description", JStr description);
        ("authorization_uri", JStr auth_url);
        ("discovery_uri", JStr discovery_url)].

(** Lines 88-105: the answer to a request with no bearer token. *)
Definition reject_missing_bearer : result Response :=
  let response := jsonify (unauthorized_body "Bearer token required") in
  let response := set_status response 401 in
  set_header rt response "WWW-Authenticate"
             (JStr (www_authenticate "Bearer token required")).

(** Lines 132-151: the [except Exception as e] handler. *)
Definition reject_exception (e : exn) : result Response :=
  let response := jsonify (unauthorized_body (str_exn e)) in
  let response := set_status response 401 in
  set_header rt response "WWW-Authenticate"
             (JStr (www_authenticate "Token validation failed")).

(** Lines 109-130: the body of the [try]. *)
Definition introspect_and_authorize (token : string) : result Response :=
  token_info <- introspect_token token ;;
  active <- py_get token_info "active" (JBool false) ;;
  if negb (truthy active) then Raise (ValueError "Token is not active")
  else
    sub <- py_get token_info "sub" (JStr EmptyString) ;;
    email <- py_get token_info "email" (JStr EmptyString) ;;
    realm_access <- py_get token_info "realm_access" (JObj []) ;;
    roles <- py_get realm_access "roles" (JArr []) ;;
    scope <- py_get token_info "scope" (JStr EmptyString) ;;
    let response := jsonify (JObj [("status", JStr "ok")]) in
    let response := set_status response 200 in
    response <- set_header rt response "X-User-Sub" sub ;;
    response <- set_header rt response "X-User-Email" email ;;
    joined <- py_join "," roles ;;
    response <- set_header rt response "X-User-Roles" (JStr joined) ;;
    response <- set_header rt response "X-User-Scopes" scope ;;
    Ok response.

(** [verify_token()], the handler of [/verify].  The argument is the
    request's [Authorization] header, [None] when the request has none.
    The result pairs what the handler returns (or the exception that
    leaves it) with the tokens it sent to introspection, in order. *)
Definition verify_token (authorization : option string)
  : result Response * list string :=
  let auth_header :=
    match authorization with Some h => h | None => EmptyString end in
  if negb (startswith auth_header "Bearer ") then
    (reject_missing_bearer, [])
  else
    let token := str_drop 7 auth_header in
    match introspect_and_authorize token with
    | Ok response => (Ok response, [token])
    | Raise e => (reject_exception e, [token])
    end.

(** The shape of a 401 answer: the body carries [body_description], the
    challenge carries [header_description]. *)
Definition rejection (body_description header_description : string) : Response :=
  {| status_code := 401;
     body := unauthorized_body body_description;
     headers := [("Content-Type", "application/json");
                 ("WWW-Authenticate", www_authenticate header_description)] |}.

End Gateway.

(** The shape of a 200 answer: the acknowledgement body and the four
    identity headers, in the order lines 125-128 set them. *)
Definition authorized (sub email roles scopes : string) : Response :=
  {| status_code := 200;
     body := JObj [("status", JStr "ok")];
     headers := [("Content-Type", "application/json");
                 ("X-User-Sub", sub);
                 ("X-User-Email", email);
                 ("X-User-Roles", roles);
                 ("X-User-Scopes", scopes)] |}.

(** The four headers that carry identity to the resource servers. *)
Definition identity_headers : list string :=
  ["X-User-Sub"; "X-User-Email"; "X-User-Roles"; "X-User-Scopes"].

Definition no_identity_header (r : Response) : bool :=
  forallb (fun k => match header (headers r) k with None => true | Some _ => false end)
          identity_headers.

End AuthService.

(* ================================================================== *)
(** * The JSON-RPC models both resource servers declare                *)
(* ================================================================== *)

Module JsonRpc.
Import Py.

(** [id: int | str] *)
Inductive rpc_id : Type :=
| IdInt (z : Z)
| IdStr (s : string).

Definition json_of_id (i : rpc_id) : json :=
  match i with
  | IdInt z => JInt z
  | IdStr s => JStr s
  end.

(** [class JsonRpcRequest(BaseModel)], once validated. *)
Record JsonRpcRequest : Type := {
  jsonrpc : string;
  id : rpc_id;
  method : string;
  params : dict
}.

(** What the endpoint hands back to the framework: a status and the JSON
    content.  A plain dict returned by the handler is sent with 200. *)
Record HttpResponse : Type := {
  status : Z;
  content : json
}.

Definition JSONResponse (status_code : Z) (c : json) : HttpResponse :=
  {| status := status_code; content := c |}.

Definition return_dict (c : json) : HttpResponse :=
  {| status := 200; content := c |}.

(** The identity headers of a request; [None] is a header the request
    does not carry. *)
Record Headers : Type := {
  X_User_Sub : option string;
  X_User_Email : option string;
  X_User_Roles : option string;
  X_User_Scopes : option string
}.

(** [Header(default=d)] *)
Definition header_default (d : string) (h : option string) : string :=
  match h with Some v => v | None => d end.

(** The two envelopes the endpoints build, as dict literals in the source. *)

Definition rpc_error (i : json) (code : Z) (message data : string) : json :=
  JObj [("jsonrpc", JStr "2.0");
        ("id", i);
        ("error", JObj [("code", JInt code);
                        ("message", JStr message);
                        ("data", JStr data)])].

Definition rpc_result (i : json) (r : json) : json :=
  JObj [("jsonrpc", JStr "2.0"); ("id", i); ("result", r)].

(** The keys of the response envelope. *)
Definition envelope_get (c : json) (k : string) : option json :=
  match c with
  | JObj d => dict_get d k
  | _ => None
  end.

Definition populated (c : json) (k : string) : bool :=
  match envelope_get c k with Some _ => true | None => false end.

(** An answer fits its request: 400 for a body that did not parse and 200
    otherwise, exactly one of [result] and [error] in the envelope, and
    the request's [id] echoed ([null] when there is no request). *)
Definition well_formed (parsed : Py.result JsonRpcRequest) (resp : HttpResponse) : Prop :=
  status resp = match parsed with Ok _ => 200%Z | Raise _ => 400%Z end
  /\ xorb (populated (content resp) "result") (populated (content resp) "error") = true
  /\ envelope_get (content resp) "id"
     = Some (match parsed with Ok r => json_of_id (id r) | Raise _ => JNull end).

(** [rpc_request.params.get("name")] *)
Definition param_name (r : JsonRpcRequest) : json :=
  match dict_get (params r) "name" with
  | Some v => v
  | None => JNull
  end.

(** [rpc_request.params.get("arguments", {})] *)
Definition param_arguments (r : JsonRpcRequest) : json :=
  match dict_get (params r) "arguments" with
  | Some v => v
  | None => JObj []
  end.

(** The [result] member of what the handler returned, if any. *)
Definition result_of (o : Py.result HttpResponse) : option json :=
  match o with
  | Ok resp => envelope_get (content resp) "result"
  | Raise _ => None
  end.

(** The names of a tool list, in its order. *)
Definition tool_names (tools : list json) : list (option json) :=
  map (fun t => envelope_get t "name") tools.

(** The text of a successful tool call's single content item. *)
Definition tool_result (text x_user_sub x_user_email : string) : json :=
  JObj [("content", JArr [JObj [("type", JStr "text"); ("text", JStr text)]]);
        ("user", JObj [("sub", JStr x_user_sub); ("email", JStr x_user_email)])].

End JsonRpc.

(* ================================================================== *)
(** * mcp-calculator-server/calculator_server.py                       *)
(* ================================================================== *)

Module CalculatorServer.
Import Py JsonRpc.
Local Open Scope py_scope.

Definition get_user_scopes (x_user_scopes : string) : list string :=
  if truthy (JStr x_user_scopes) then split SPACE x_user_scopes
  else ["calculator:read"].

Definition check_scope (scopes : list string) (required_scope : string) : bool :=
  if String.eqb required_scope "calculator:read" then
    str_in "calculator:read" scopes
    || str_in "calculator-scope" scopes
    || str_in "openid" scopes
  else str_in required_scope scopes.

(** The scopes line 319 computes from the [X-User-Scopes] header. *)
Definition effective_scopes (h : Headers) : list string :=
  get_user_scopes (header_default "calculator:read" (X_User_Scopes h)).

Definition rule : string := "━━━━━━━━━━━━━━━━━━━━━━━━━━━━━━━━━━".

Section Tools.

Variable rt : Runtime.

Definition timestamp : string := strftime_now rt "%Y-%m-%d %H:%M:%S".

Definition calculate_add (a b : float) : string :=
  let result := float_add a b in
  nl ++ "🧮 Calcul: Addition" ++ nl
  ++ rule ++ nl
  ++ "📊 Opération: " ++ repr_float rt a ++ " + " ++ repr_float rt b ++ nl
  ++ "✅ Résultat: " ++ repr_float rt result ++ nl
  ++ "📅 Calculé le: " ++ timestamp ++ nl.

Definition calculate_subtract (a b : float) : string :=
  let result := float_sub a b in
  nl ++ "🧮 Calcul: Soustraction" ++ nl
  ++ rule ++ nl
  ++ "📊 Opération: " ++ repr_float rt a ++ " - " ++ repr_float rt b ++ nl
  ++ "✅ Résultat: " ++ repr_float rt result ++ nl
  ++ "📅 Calculé le: " ++ timestamp ++ nl.

Definition calculate_multiply (a b : float) : string :=
  let result := float_mul a b in
  nl ++ "🧮 Calcul: Multiplication" ++ nl
  ++ rule ++ nl
  ++ "📊 Opération: " ++ repr_float rt a ++ " × " ++ repr_float rt b ++ nl
  ++ "✅ Résultat: " ++ repr_float rt result ++ nl
  ++ "📅 Calculé le: " ++ timestamp ++ nl.

Definition calculate_divide (a b : float) : string :=
  if float_eqb b float_zero then
    nl ++ "🧮 Calcul: Division" ++ nl
    ++ rule ++ nl
    ++ "📊 Opération: " ++ repr_float rt a ++ " ÷ " ++ repr_float rt b ++ nl
    ++ "❌ Erreur: Division par zéro impossible!" ++ nl
    ++ "📅 Calculé le: " ++ timestamp ++ nl
  else
    let result := float_div a b in
    nl ++ "🧮 Calcul: Division" ++ nl
    ++ rule ++ nl
    ++ "📊 Opération: " ++ repr_float rt a ++ " ÷ " ++ repr_float rt b ++ nl
    ++ "✅ Résultat: " ++ repr_float rt result ++ nl
    ++ "📅 Calculé le: " ++ timestamp ++ nl.

(** [math.pow] may raise, and nothing here catches it. *)
Definition calculate_power (base exponent : float) : Py.result string :=
  result <- math_pow rt base exponent ;;
  Ok (nl ++ "🧮 Calcul: Puissance" ++ nl
      ++ rule ++ nl
      ++ "📊 Opération: " ++ repr_float rt base ++ "^" ++ repr_float rt exponent ++ nl
      ++ "✅ Résultat: " ++ repr_float rt result ++ nl
      ++ "📅 Calculé le: " ++ timestamp ++ nl).

(** [math.sqrt] is only reached with a number that is not below zero,
    where it does not raise. *)
Definition calculate_sqrt (number : float) : string :=
  if float_ltb number float_zero then
    nl ++ "🧮 Calcul: Racine Carrée" ++ nl
    ++ rule ++ nl
    ++ "📊 Opération: √" ++ repr_float rt number ++ nl
    ++ "❌ Erreur: Racine carrée d'un nombre négatif impossible!" ++ nl
    ++ "📅 Calculé le: " ++ timestamp ++ nl
  else
    let result := float_sqrt number in
    nl ++ "🧮 Calcul: Racine Carrée" ++ nl
    ++ rule ++ nl
    ++ "📊 Opération: √" ++ repr_float rt number ++ nl
    ++ "✅ Résultat: " ++ repr_float rt result ++ nl
    ++ "📅 Calculé le: " ++ timestamp ++ nl.

End Tools.

(** A [{"type": "number", "description": d}] schema entry. *)
Definition number_property (d : string) : json :=
  JObj [("type", JStr "number"); ("description", JStr d)].

(** A tool whose input is an object of required number properties. *)
Definition tool (name description : string) (properties : list (string * string))
  : json :=
  JObj [("name", JStr name);
        ("description", JStr description);
        ("inputSchema",
          JObj [("type", JStr "object");
                ("properties",
                  JObj (map (fun p => (fst p, number_property (snd p))) properties));
                ("required", JArr (map (fun p => JStr (fst p)) properties))])].

Definition MCP_TOOLS : list json :=
  [ tool "add" "Add two numbers together (a + b)"
         [("a", "First number"); ("b", "Second number")];
    tool "subtract" "Subtract two numbers (a - b)"
         [("a", "First number"); ("b", "Number to subtract")];
    tool "multiply" "Multiply two numbers (a × b)"
         [("a", "First number"); ("b", "Second number")];
    tool "divide" "Divide two numbers (a ÷ b)"
         [("a", "Dividend (number to divide)"); ("b", "Divisor (number to divide by)")];
    tool "power" "Calculate power of a number (base^exponent)"
         [("base", "Base number"); ("exponent", "Exponent")];
    tool "sqrt" "Calculate square root of a number"
         [("number", "Number to calculate square root of")] ].

(** A tool name the dispatch chain knows. *)
Definition registered (tool_name : json) : bool :=
  existsb (str_is tool_name) ["add"; "subtract"; "multiply"; "divide"; "power"; "sqrt"].

Section Endpoint.

Variable rt : Runtime.

(** Lines 348-386: the chain that coerces the arguments and runs the
    tool.  [None] stands for the final [else], an unknown tool name. *)
Definition execute_tool (tool_name arguments : json) : Py.result (option string) :=
  if str_is tool_name "add" then
    a <- bind (py_get arguments "a" (JInt 0)) (py_float rt) ;;
    b <- bind (py_get arguments "b" (JInt 0)) (py_float rt) ;;
    Ok (Some (calculate_add rt a b))
  else if str_is tool_name "subtract" then
    a <- bind (py_get arguments "a" (JInt 0)) (py_float rt) ;;
    b <- bind (py_get arguments "b" (JInt 0)) (py_float rt) ;;
    Ok (Some (calculate_subtract rt a b))
  else if str_is tool_name "multiply" then
    a <- bind (py_get arguments "a" (JInt 0)) (py_float rt) ;;
    b <- bind (py_get arguments "b" (JInt 0)) (py_float rt) ;;
    Ok (Some (calculate_multiply rt a b))
  else if str_is tool_name "divide" then
    a <- bind (py_get arguments "a" (JInt 0)) (py_float rt) ;;
    b <- bind (py_get arguments "b" (JInt 0)) (py_float rt) ;;
    Ok (Some (calculate_divide rt a b))
  else if str_is tool_name "power" then
    base <- bind (py_get arguments "base" (JInt 0)) (py_float rt) ;;
    exponent <- bind (py_get arguments "exponent" (JInt 0)) (py_float rt) ;;
    result <- calculate_power rt base exponent ;;
    Ok (Some result)
  else if str_is tool_name "sqrt" then
    number <- bind (py_get arguments "number" (JInt 0)) (py_float rt) ;;
    Ok (Some (calculate_sqrt rt number))
  else Ok None.

(** [mcp_endpoint], the handler of [POST /] and [POST /mcp].

    [parsed] is the outcome of lines 303-304, [request.json()] followed by
    the construction of a [JsonRpcRequest] from the body: the validated request, or the exception
    either of them raised.  A [Raise] result is an exception that leaves
    the handler. *)
Definition mcp_endpoint (parsed : Py.result JsonRpcRequest) (h : Headers)
  : Py.result HttpResponse :=
  let x_user_sub := header_default "anonymous" (X_User_Sub h) in
  let x_user_email := header_default EmptyString (X_User_Email h) in
  let x_user_scopes := header_default "calculator:read" (X_User_Scopes h) in
  match parsed with
  | Raise e =>
      Ok (JSONResponse 400 (rpc_error JNull (-32700) "Parse error" (str_exn e)))
  | Ok rpc_request =>
      let scopes := get_user_scopes x_user_scopes in
      let rid := json_of_id (id rpc_request) in
      if String.eqb (method rpc_request) "tools/list" then
        Ok (return_dict (rpc_result rid (JObj [("tools", JArr MCP_TOOLS)])))
      else if String.eqb (method rpc_request) "tools/call" then
        let tool_name :=
          match dict_get (params rpc_request) "name" with
          | Some v => v
          | None => JNull
          end in
        let arguments :=
          match dict_get (params rpc_request) "arguments" with
          | Some v => v
          | None => JObj []
          end in
        if negb (check_scope scopes "calculator:read") then
          Ok (return_dict (rpc_error rid (-32600) "Insufficient permissions"
                                     "Required scope: calculator:read"))
        else
          result <- execute_tool tool_name arguments ;;
          match result with
          | None =>
              Ok (return_dict (rpc_error rid (-32601) "Method not found"
                                         ("Unknown tool: " ++ py_str rt tool_name)))
          | Some text =>
              Ok (return_dict
                    (rpc_result rid
                       (JObj [("content",
                                JArr [JObj [("type", JStr "text");
                                            ("text", JStr text)]]);
                              ("user",
                                JObj [("sub", JStr x_user_sub);
                                      ("email", JStr x_user_email)])])))
          end
      else if String.eqb (method rpc_request) "initialize" then
        Ok (return_dict
              (rpc_result rid
                 (JObj [("protocolVersion", JStr "2024-11-05");
                        ("capabilities", JObj [("tools", JObj [])]);
                        ("serverInfo",
                          JObj [("name", JStr "mcp-calculator-server");
                                ("version", JStr "1.0.0")])])))
      else
        Ok (return_dict (rpc_error rid (-32601) "Method not found"
                                   ("Unknown method: " ++ method rpc_request)))
  end.

End Endpoint.

End CalculatorServer.

(* ================================================================== *)
(** * mcp-weather-server/weather_server.py                             *)
(* ================================================================== *)

Module WeatherServer.
Import Py JsonRpc.
Local Open Scope py_scope.

Definition get_user_scopes (x_user_scopes : string) : list string :=
  if truthy (JStr x_user_scopes) then split SPACE x_user_scopes
  else ["weather:read"].

Definition check_scope (scopes : list string) (required_scope : string) : bool :=
  if String.eqb required_scope "weather:read" then
    str_in "weather:read" scopes || str_in "weather-scope" scopes
  else str_in required_scope scopes.

(** The scopes line 223 computes from the [X-User-Scopes] header. *)
Definition effective_scopes (h : Headers) : list string :=
  get_user_scopes (header_default "weather:read" (X_User_Scopes h)).

Definition rule : string := "━━━━━━━━━━━━━━━━━━━━━━━━━━━━━━━━━━".

Section Tools.

Variable rt : Runtime.

Definition get_mock_forecast (city country_code : json) : string :=
  nl ++ "🌤️ Météo pour " ++ py_str rt city ++ ", " ++ py_str rt country_code ++ nl
  ++ rule ++ nl
  ++ "📊 Conditions: Partiellement nuageux" ++ nl
  ++ "🌡️ Température: 12°C" ++ nl
  ++ "🤔 Ressenti: 10°C" ++ nl
  ++ "💧 Humidité: 65%" ++ nl
  ++ "💨 Vent: 15 km/h" ++ nl
  ++ "📅 Mise à jour: " ++ strftime_now rt "%Y-%m-%d %H:%M:%S" ++ nl.

Definition get_weather_alerts (region : json) : string :=
  nl ++ "⚠️ Alertes Météo pour " ++ py_str rt region ++ nl
  ++ rule ++ nl
  ++ "🟡 Vigilance Jaune - Vent" ++ nl
  ++ "   Région: Normandie, Bretagne" ++ nl
  ++ "   Valide: " ++ strftime_now rt "%Y-%m-%d" ++ " 06:00 - 18:00" ++ nl
  ++ "   " ++ nl
  ++ "🟢 Aucune alerte majeure" ++ nl
  ++ "   Le reste du territoire est en vigilance verte." ++ nl
  ++ "   " ++ nl
  ++ "📅 Dernière mise à jour: " ++ strftime_now rt "%Y-%m-%d %H:%M:%S" ++ nl.

Definition get_uv_index (city country_code : json) : string :=
  nl ++ "☀️ Indice UV pour " ++ py_str rt city ++ ", " ++ py_str rt country_code ++ nl
  ++ rule ++ nl
  ++ "📊 Indice UV: 5" ++ nl
  ++ "📈 Niveau: Modéré" ++ nl
  ++ "🛡️ Recommandation: Protection nécessaire: lunettes de soleil, crème solaire SPF 30+" ++ nl
  ++ "📅 Date: " ++ strftime_now rt "%Y-%m-%d" ++ nl.

End Tools.

Definition string_property (fields : list (string * string)) : json :=
  JObj (("type", JStr "string") :: map (fun p => (fst p, JStr (snd p))) fields).

Definition MCP_TOOLS : list json :=
  [ JObj [("name", JStr "get_weather_forecast");
          ("description", JStr "Get current weather forecast for a city");
          ("inputSchema",
            JObj [("type", JStr "object");
                  ("properties",
                    JObj [("city",
                            string_property
                              [("description",
                                "Name of the city (e.g., Paris, Lyon, Marseille)")]);
                          ("country_code",
                            string_property
                              [("description",
                                "ISO 3166-1 alpha-2 country code (default: FR)");
                               ("default", "FR")])]);
                  ("required", JArr [JStr "city"])])];
    JObj [("name", JStr "get_weather_alerts");
          ("description", JStr "Get active weather alerts for a region");
          ("inputSchema",
            JObj [("type", JStr "object");
                  ("properties",
                    JObj [("region",
                            string_property
                              [("description", "Region or country name");
                               ("default", "France")])])])];
    JObj [("name", JStr "get_uv_index");
          ("description", JStr "Get UV index for a city");
          ("inputSchema",
            JObj [("type", JStr "object");
                  ("properties",
                    JObj [("city",
                            string_property [("description", "Name of the city")]);
                          ("country_code",
                            string_property
                              [("description", "ISO country code");
                               ("default", "FR")])]);
                  ("required", JArr [JStr "city"])])] ].

(** A tool name the dispatch chain knows. *)
Definition registered (tool_name : json) : bool :=
  existsb (str_is tool_name)
          ["get_weather_forecast"; "get_weather_alerts"; "get_uv_index"].

Section Endpoint.

Variable rt : Runtime.

(** Lines 252-275: the chain that reads the arguments and runs the tool.
    [None] stands for the final [else], an unknown tool name. *)
Definition execute_tool (tool_name arguments : json) : Py.result (option string) :=
  if str_is tool_name "get_weather_forecast" then
    city <- py_get arguments "city" (JStr "Paris") ;;
    country_code <- py_get arguments "country_code" (JStr "FR") ;;
    Ok (Some (get_mock_forecast rt city country_code))
  else if str_is tool_name "get_weather_alerts" then
    region <- py_get arguments "region" (JStr "France") ;;
    Ok (Some (get_weather_alerts rt region))
  else if str_is tool_name "get_uv_index" then
    city <- py_get arguments "city" (JStr "Paris") ;;
    country_code <- py_get arguments "country_code" (JStr "FR") ;;
    Ok (Some (get_uv_index rt city country_code))
  else Ok None.

(** [mcp_endpoint]; [parsed] and the result are as in the calculator. *)
Definition mcp_endpoint (parsed : Py.result JsonRpcRequest) (h : Headers)
  : Py.result HttpResponse :=
  let x_user_sub := header_default "anonymous" (X_User_Sub h) in
  let x_user_email := header_default EmptyString (X_User_Email h) in
  let x_user_scopes := header_default "weather:read" (X_User_Scopes h) in
  match parsed with
  | Raise e =>
      Ok (JSONResponse 400 (rpc_error JNull (-32700) "Parse error" (str_exn e)))
  | Ok rpc_request =>
      let scopes := get_user_scopes x_user_scopes in
      let rid := json_of_id (id rpc_request) in
      if String.eqb (method rpc_request) "tools/list" then
        Ok (return_dict (rpc_result rid (JObj [("tools", JArr MCP_TOOLS)])))
      else if String.eqb (method rpc_request) "tools/call" then
        let tool_name :=
          match dict_get (params rpc_request) "name" with
          | Some v => v
          | None => JNull
          end in
        let arguments :=
          match dict_get (params rpc_request) "arguments" with
          | Some v => v
          | None => JObj []
          end in
        if negb (check_scope scopes "weather:read") then
          Ok (return_dict (rpc_error rid (-32600) "Insufficient permissions"
                                     "Required scope: weather:read"))
        else
          result <- execute_tool tool_name arguments ;;
          match result with
          | None =>
              Ok (return_dict (rpc_error rid (-32601) "Method not found"
                                         ("Unknown tool: " ++ py_str rt tool_name)))
          | Some text =>
              Ok (return_dict
                    (rpc_result rid
                       (JObj [("content",
                                JArr [JObj [("type", JStr "text");
                                            ("text", JStr text)]]);
                              ("user",
                                JObj [("sub", JStr x_user_sub);
                                      ("email", JStr x_user_email)])])))
          end
      else if String.eqb (method rpc_request) "initialize" then
        Ok (return_dict
              (rpc_result rid
                 (JObj [("protocolVersion", JStr "2024-11-05");
                        ("capabilities", JObj [("tools", JObj [])]);
                        ("serverInfo",
                          JObj [("name", JStr "mcp-weather-server");
                                ("version", JStr "1.0.0")])])))
      else
        Ok (return_dict (rpc_error rid (-32601) "Method not found"
                                   ("Unknown method: " ++ method rpc_request)))
  end.

End Endpoint.

End WeatherServer.

(* ================================================================== *)
(** * Concrete inputs used by the closed examples                      *)
(* ================================================================== *)

Module Samples.
Import Py JsonRpc.

(** A runtime for evaluating closed examples.  Every statement proved
    for all runtimes holds for the interpreter's; the examples below only
    read the shape of the answers, never the rendered floats or dates. *)
Definition demo_runtime : Runtime :=
  {| float_of_str := fun _ => None;
     math_pow := fun _ _ => Raise (ValueError "math domain error");
     repr_float := fun _ => "<float>";
     repr_other := fun _ => "<repr>";
     strftime_now := fun _ => "<now>" |}.

(** The defaults of [os.getenv] in auth_service.py. *)
Definition demo_url : string := "http://keycloak:8080".
Definition demo_realm : string := "mcp-gateway".

(** An authority that reports every token active, for one user. *)
Definition introspect_active (token : string) : Py.result json :=
  Ok (JObj [("active", JBool true);
            ("sub", JStr "u-42");
            ("email", JStr "ada@example.org");
            ("realm_access", JObj [("roles", JArr [JStr "user"; JStr "admin"])]);
            ("scope", JStr "openid weather:read")]).

(** An authority that reports every token inactive. *)
Definition introspect_inactive (token : string) : Py.result json :=
  Ok (JObj [("active", JBool false)]).

(** An authority that cannot be reached. *)
Definition introspect_down (token : string) : Py.result json :=
  Raise (OtherError "ConnectionError" "connection refused").

(** An authority whose answer is active but lists a number among the
    roles. *)
Definition introspect_odd_roles (token : string) : Py.result json :=
  Ok (JObj [("active", JBool true);
            ("sub", JStr "u-42");
            ("realm_access", JObj [("roles", JArr [JInt 7])])]).

Definition no_headers : Headers :=
  {| X_User_Sub := None; X_User_Email := None;
     X_User_Roles := None; X_User_Scopes := None |}.


Definition tools_call (i : Z) (name : string) (arguments : json) : JsonRpcRequest :=
  {| jsonrpc := "2.0"; id := IdInt i; method := "tools/call";
     params := [("name", JStr name); ("arguments", arguments)] |}.



End Samples.

(* ================================================================== *)
(** * The HTTP client the auth service calls ([requests])              *)
(* ================================================================== *)

Module Requests.
Import Py.

(** A [requests.Response], as far as the auth service reads it. *)
Record Reply : Type := {
  reply_status : Z;
  reply_reason : string;
  reply_url : string;
  (** [response.json()], which raises on a body that is not JSON *)
  reply_json : Py.result json
}.

(** [response.raise_for_status()]: a 4xx or 5xx status raises
    [HTTPError]; every other status, 1xx and 3xx included, passes. *)
Definition raise_for_status (r : Reply) : Py.result unit :=
  if Z.leb 400 (reply_status r) && Z.ltb (reply_status r) 500 then
    Raise (OtherError "HTTPError"
             (str_of_Z (reply_status r) ++ " Client Error: " ++ reply_reason r
              ++ " for url: " ++ reply_url r))
  else if Z.leb 500 (reply_status r) && Z.ltb (reply_status r) 600 then
    Raise (OtherError "HTTPError"
             (str_of_Z (reply_status r) ++ " Server Error: " ++ reply_reason r
              ++ " for url: " ++ reply_url r))
  else Ok tt.

(** [requests.get(url, timeout=t)]: the reply, or the exception of a
    failed connection or a timeout. *)
Definition Get : Type := string -> Z -> Py.result Reply.

(** [requests.post(url, data=form, auth=(user, password), timeout=t)] *)
Definition Post : Type :=
  string -> list (string * string) -> string * string -> Z -> Py.result Reply.

End Requests.

(* ================================================================== *)
(** * auth_service.py: key cache, discovery document, introspection    *)
(* ================================================================== *)

Module AuthClient.
Import Py Requests AuthService.
Local Open Scope py_scope.

Section Client.

Variable KEYCLOAK_URL : string.
Variable KEYCLOAK_REALM : string.
Variable KEYCLOAK_CLIENT_ID : string.
Variable KEYCLOAK_CLIENT_SECRET : string.

Definition realm_url : string := KEYCLOAK_URL ++ "/realms/" ++ KEYCLOAK_REALM.

Definition jwks_url : string :=
  KEYCLOAK_URL ++ "/realms/" ++ KEYCLOAK_REALM ++ "/protocol/openid-connect/certs".

(** [get_keycloak_jwks()].  The module-level [_jwks_cache] is threaded
    through: the argument is its value before the call ([JNull] for
    [None]), the result is what the call returns or raises, the value of
    the cache after it, and the URLs it fetched. *)
Definition get_keycloak_jwks (requests_get : Get) (_jwks_cache : json)
  : Py.result json * json * list string :=
  match _jwks_cache with
  | JNull =>
      match requests_get jwks_url 10%Z with
      | Raise e => (Raise e, _jwks_cache, [jwks_url])
      | Ok response =>
          match raise_for_status response with
          | Raise e => (Raise e, _jwks_cache, [jwks_url])
          | Ok _ =>
              match reply_json response with
              | Raise e => (Raise e, _jwks_cache, [jwks_url])
              | Ok keys => (Ok keys, keys, [jwks_url])
              end
          end
      end
  | _ => (Ok _jwks_cache, _jwks_cache, [])
  end.

Definition strs (l : list string) : json := JArr (map JStr l).

(** [get_discovery_metadata()] *)
Definition get_discovery_metadata : dict :=
  [("issuer", JStr (KEYCLOAK_URL ++ "/realms/" ++ KEYCLOAK_REALM));
   ("authorization_endpoint",
     JStr (KEYCLOAK_URL ++ "/realms/" ++ KEYCLOAK_REALM
           ++ "/protocol/openid-connect/auth"));
   ("token_endpoint",
     JStr (KEYCLOAK_URL ++ "/realms/" ++ KEYCLOAK_REALM
           ++ "/protocol/openid-connect/token"));
   ("introspection_endpoint",
     JStr (KEYCLOAK_URL ++ "/realms/" ++ KEYCLOAK_REALM
           ++ "/protocol/openid-connect/token/introspect"));
   ("userinfo_endpoint",
     JStr (KEYCLOAK_URL ++ "/realms/" ++ KEYCLOAK_REALM
           ++ "/protocol/openid-connect/userinfo"));
   ("end_session_endpoint",
     JStr (KEYCLOAK_URL ++ "/realms/" ++ KEYCLOAK_REALM
           ++ "/protocol/openid-connect/logout"));
   ("jwks_uri",
     JStr (KEYCLOAK_URL ++ "/realms/" ++ KEYCLOAK_REALM
           ++ "/protocol/openid-connect/certs"));
   ("registration_endpoint",
     JStr (KEYCLOAK_URL ++ "/realms/" ++ KEYCLOAK_REALM
           ++ "/clients-registrations/openid-connect"));
   ("scopes_supported",
     strs ["openid"; "profile"; "email"; "weather:read"; "weather:alerts"]);
   ("response_types_supported",
     strs ["code"; "token"; "id_token"; "code token"; "code id_token"]);
   ("grant_types_supported",
     strs ["authorization_code"; "refresh_token"; "client_credentials"]);
   ("token_endpoint_auth_methods_supported",
     strs ["client_secret_basic"; "client_secret_post"]);
   ("code_challenge_methods_supported", strs ["S256"])].

(** [introspect_token(token)] *)
Definition introspect_token (requests_post : Post) (token : string) : Py.result json :=
  let introspect_url :=
    KEYCLOAK_URL ++ "/realms/" ++ KEYCLOAK_REALM
    ++ "/protocol/openid-connect/token/introspect" in
  response <- requests_post introspect_url
                            [("token", token); ("token_type_hint", "access_token")]
                            (KEYCLOAK_CLIENT_ID, KEYCLOAK_CLIENT_SECRET)
                            10%Z ;;
  _ <- raise_for_status response ;;
  reply_json response.

(** [oauth_discovery()], the handler of the well-known path. *)
Definition oauth_discovery : Response := jsonify (JObj get_discovery_metadata).

(** [health()] *)
Definition health : Response :=
  jsonify (JObj [("status", JStr "healthy");
                 ("service", JStr "auth-service");
                 ("keycloak_url", JStr KEYCLOAK_URL);
                 ("realm", JStr KEYCLOAK_REALM)]).


End Client.

(** The [authorization_uri] member of a 401 body. *)
Definition envelope_get_auth (body : json) : option json :=
  match body with
  | JObj d => dict_get d "authorization_uri"
  | _ => None
  end.

End AuthClient.

(* ================================================================== *)
(** * The [/info] endpoints and argument shapes of the resource servers *)
(* ================================================================== *)

Module ServerInfo.
Import Py JsonRpc.
Local Open Scope py_scope.





(** A value [float()] accepts without consulting the runtime: a float, a
    bool, or an int whose nearest float is finite. *)
Definition numeric (v : json) : bool :=
  match v with
  | JFloat _ | JBool _ => true
  | JInt z => match float_of_Z z with S754_infinity _ => false | _ => true end
  | _ => false
  end.

(** The tool a list registers under a name, if any. *)
Fixpoint find_tool (tools : list json) (name : json) : option json :=
  match tools with
  | [] => None
  | t :: rest =>
      match envelope_get t "name" with
      | Some (JStr n) => if str_is name n then Some t else find_tool rest name
      | _ => find_tool rest name
      end
  end.

(** The arguments a tool list declares for a name: the keys of the
    [properties] of its [inputSchema]; none for a name it does not list. *)
Definition declared_arguments (tools : list json) (name : json) : list string :=
  match find_tool tools name with
  | Some t =>
      match envelope_get t "inputSchema" with
      | Some schema =>
          match envelope_get schema "properties" with
          | Some (JObj properties) => map fst properties
          | _ => []
          end
      | None => []
      end
  | None => []
  end.

(** The insufficient-permissions envelope of a server. *)
Definition denied (i : rpc_id) (scope : string) : json :=
  rpc_error (json_of_id i) (-32600) "Insufficient permissions"
            ("Required scope: " ++ scope).

(** The same headers with another [X-User-Roles]. *)
Definition with_roles (h : Headers) (roles : option string) : Headers :=
  {| X_User_Sub := X_User_Sub h; X_User_Email := X_User_Email h;
     X_User_Roles := roles; X_User_Scopes := X_User_Scopes h |}.

(** The same request under another [jsonrpc] version string. *)
Definition with_jsonrpc (r : JsonRpcRequest) (v : string) : JsonRpcRequest :=
  {| jsonrpc := v; id := id r; method := method r; params := params r |}.

End ServerInfo.

(* ================================================================== *)
(** * Concrete authorities and requests for further examples           *)
(* ================================================================== *)

Module Network.
Import Py Requests JsonRpc.


Definition reply (code : Z) (reason : string) (body : Py.result json) : Reply :=
  {| reply_status := code; reply_reason := reason;
     reply_url := "http://keycloak:8080/realms/mcp-gateway/protocol/openid-connect/token/introspect";
     reply_json := body |}.

(** Keycloak answering 200 with an active token of scope [openid]. *)
Definition keycloak_active : Post :=
  fun _ _ _ _ =>
    Ok (reply 200 "OK"
              (Ok (JObj [("active", JBool true);
                         ("sub", JStr "u-42");
                         ("scope", JStr "openid profile")]))).

(** Keycloak answering 200 with an active token that has no scope. *)
Definition keycloak_no_scope : Post :=
  fun _ _ _ _ =>
    Ok (reply 200 "OK" (Ok (JObj [("active", JBool true); ("sub", JStr "u-42")]))).


(** A key server that answers once with a key set. *)
Definition jwks_ok : Get :=
  fun _ _ =>
    Ok {| reply_status := 200; reply_reason := "OK";
          reply_url := "http://keycloak:8080/realms/mcp-gateway/protocol/openid-connect/certs";
          reply_json := Ok (JObj [("keys", JArr [JObj [("kid", JStr "k1")]])]) |}.

(** A key server that is down. *)
Definition jwks_down : Get :=
  fun _ _ => Raise (OtherError "ConnectionError" "connection refused").



(** An authority whose active answer has no [scope] claim. *)
Definition introspect_no_scope (token : string) : Py.result json :=
  Ok (JObj [("active", JBool true);
            ("sub", JStr "u-42");
            ("email", JStr "ada@example.org");
            ("realm_access", JObj [("roles", JArr [JStr "user"])])]).

Definition scopes_header (s : string) : Headers :=
  {| X_User_Sub := Some "u-42"; X_User_Email := None;
     X_User_Roles := None; X_User_Scopes := Some s |}.

End Network.

(* ================================================================== *)
(** * Facts about the Python model                                     *)
(* ================================================================== *)

Module PyFacts.
Import Py.

Lemma bind_ok {A B : Type} (m : result A) (k : A -> result B) (b : B) :
  bind m k = Ok b -> exists a, m = Ok a /\ k a = Ok b.
Proof.
  destruct m as [a | e]; simpl; intros H.
  - exists a; split; [reflexivity | exact H].
  - discriminate H.
Qed.

Lemma str_contains_char_app (c : ascii) (a b : string) :
  str_contains_char c (a ++ b) = str_contains_char c a || str_contains_char c b.
Proof.
  induction a as [| x a IH]; simpl.
  - reflexivity.
  - rewrite IH. apply orb_assoc.
Qed.

Lemma str_in_In (x : string) (l : list string) :
  str_in x l = true <-> In x l.
Proof.
  unfold str_in. rewrite existsb_exists. split.
  - intros (y & Hy & E). apply String.eqb_eq in E. subst y. exact Hy.
  - intros H. exists x. split; [exact H | apply String.eqb_refl].
Qed.

(** [("Bearer " + t).startswith("Bearer ")] and [("Bearer " + t)[7:] == t] *)
Lemma startswith_bearer (t : string) : startswith ("Bearer " ++ t) "Bearer " = true.
Proof.
  unfold startswith. simpl. destruct t; reflexivity.
Qed.

Lemma str_drop_bearer (t : string) : str_drop 7 ("Bearer " ++ t) = t.
Proof. reflexivity. Qed.

(** A string that starts with the prefix is the prefix followed by its
    slice from 7. *)
Lemma startswith_split (p s : string) :
  String.prefix p s = true -> s = p ++ str_drop (String.length p) s.
Proof.
  revert s. induction p as [| c p IH]; intros s H.
  - reflexivity.
  - destruct s as [| c' s]; simpl in H; [discriminate H |].
    destruct (Ascii.ascii_dec c c') as [E | N]; [| discriminate H].
    subst c'. simpl. f_equal. apply IH. exact H.
Qed.

Lemma append_assoc (a b c : string) : (a ++ b) ++ c = a ++ (b ++ c).
Proof.
  induction a as [| x a IH]; simpl.
  - reflexivity.
  - rewrite IH. reflexivity.
Qed.

(** A list of strings joins without error. *)
Lemma join_items_strs (l : list string) (i : nat) :
  join_items i (map JStr l) = Ok l.
Proof.
  revert i. induction l as [| x l IH]; intros i; simpl.
  - reflexivity.
  - rewrite IH. reflexivity.
Qed.

(** ** The model on small inputs *)

Example split_keeps_empty_items :
  split SPACE "openid  weather:read " = ["openid"; EmptyString; "weather:read"; EmptyString].
Proof. reflexivity. Qed.

Example split_of_empty : split SPACE EmptyString = [EmptyString].
Proof. reflexivity. Qed.

Example join_of_split : join " " (split SPACE "a b  c") = "a b  c".
Proof. reflexivity. Qed.

Example float_of_small_ints :
  float_of_Z 0 = S754_zero false
  /\ float_of_Z 1 = S754_finite false 4503599627370496 (-52)
  /\ float_eqb (float_of_Z 0) float_zero = true
  /\ float_eqb (S754_zero true) float_zero = true
  /\ float_eqb S754_nan float_zero = false
  /\ float_ltb (float_of_Z (-4)) float_zero = true.
Proof. repeat split. Qed.

(** The largest integer [float()] accepts is just below
    [2^1024 - 2^970], the midpoint that rounds up to infinity. *)
Example float_of_big_ints (rt : Runtime) :
  py_float rt (JInt (2 ^ 1024 - 2 ^ 970 - 1))
  = Ok (S754_finite false 9007199254740991 971)
  /\ py_float rt (JInt (2 ^ 1024 - 2 ^ 970))
     = Raise (OverflowError "int too large to convert to float").
Proof. split; vm_compute; reflexivity. Qed.

Example get_on_a_list_raises :
  py_get (JArr []) "active" (JBool false)
  = Raise (AttributeError "'list' object has no attribute 'get'").
Proof. reflexivity. Qed.

(** A string is joined code point by code point, not byte by byte. *)
Example join_of_a_string :
  py_join "," (JStr "ab") = Ok "a,b"
  /\ py_join "," (JStr "é€a") = Ok "é,€,a"
  /\ chars "🧮x" = ["🧮"; "x"].
Proof. repeat split. Qed.

Example join_rejects_a_number :
  py_join "," (JArr [JStr "user"; JInt 7])
  = Raise (TypeError "sequence item 1: expected str instance, int found").
Proof. reflexivity. Qed.

End PyFacts.

(* ================================================================== *)
(** * The verification gateway                                         *)
(* ================================================================== *)

Module AuthServiceSpec.
Import Py PyFacts AuthService.

Lemma header_safe_app (a b : string) :
  header_safe (a ++ b) = header_safe a && header_safe b.
Proof.
  unfold header_safe. rewrite !str_contains_char_app.
  destruct (str_contains_char LF a), (str_contains_char LF b),
    (str_contains_char CR a), (str_contains_char CR b); reflexivity.
Qed.

Lemma set_header_inv (rt : Runtime) (r r' : Response) (k : string) (v : json) :
  set_header rt r k v = Ok r' ->
  header_safe (py_str rt v) = true /\
  r' = {| status_code := status_code r;
          body := body r;
          headers := filter (fun kv => negb (String.eqb (fst kv) k)) (headers r)
                     ++ [(k, py_str rt v)] |}.
Proof.
  unfold set_header. destruct (header_safe (py_str rt v)); intros H.
  - injection H as H. split; [reflexivity | symmetry; exact H].
  - discriminate H.
Qed.

Lemma set_header_ok (rt : Runtime) (r : Response) (k : string) (v : json) :
  header_safe (py_str rt v) = true ->
  set_header rt r k v =
  Ok {| status_code := status_code r;
        body := body r;
        headers := filter (fun kv => negb (String.eqb (fst kv) k)) (headers r)
                   ++ [(k, py_str rt v)] |}.
Proof. intros H. unfold set_header. rewrite H. reflexivity. Qed.

Section Gateway.

Variable rt : Runtime.
Variable KEYCLOAK_URL : string.
Variable KEYCLOAK_REALM : string.
Variable introspect_token : string -> result json.

(** Whatever the configuration, a rejection that is returned has the
    shape [rejection]. *)
Lemma reject_missing_bearer_inv (r : Response) :
  reject_missing_bearer rt KEYCLOAK_URL KEYCLOAK_REALM = Ok r ->
  r = rejection KEYCLOAK_URL KEYCLOAK_REALM
        "Bearer token required" "Bearer token required".
Proof.
  unfold reject_missing_bearer. intros H.
  apply set_header_inv in H as [_ ->]. reflexivity.
Qed.

Lemma reject_exception_inv (e : exn) (r : Response) :
  reject_exception rt KEYCLOAK_URL KEYCLOAK_REALM e = Ok r ->
  r = rejection KEYCLOAK_URL KEYCLOAK_REALM (str_exn e) "Token validation failed".
Proof.
  unfold reject_exception. intros H.
  apply set_header_inv in H as [_ ->]. reflexivity.
Qed.

(** What the [try] block returns when it returns: the token was reported
    active and the answer is [authorized] at its claims. *)
Lemma authorize_inv (token : string) (r : Response) :
  introspect_and_authorize rt introspect_token token = Ok r ->
  exists token_info active sub email realm_access roles scope joined,
    introspect_token token = Ok token_info /\
    py_get token_info "active" (JBool false) = Ok active /\
    truthy active = true /\
    py_get token_info "sub" (JStr EmptyString) = Ok sub /\
    py_get token_info "email" (JStr EmptyString) = Ok email /\
    py_get token_info "realm_access" (JObj []) = Ok realm_access /\
    py_get realm_access "roles" (JArr []) = Ok roles /\
    py_get token_info "scope" (JStr EmptyString) = Ok scope /\
    py_join "," roles = Ok joined /\
    r = authorized (py_str rt sub) (py_str rt email) joined (py_str rt scope).
Proof.
  unfold introspect_and_authorize. intros H.
  apply bind_ok in H as (token_info & Hi & H).
  apply bind_ok in H as (active & Ha & H).
  destruct (truthy active) eqn:Ht; simpl in H; [| discriminate H].
  apply bind_ok in H as (sub & Hsub & H).
  apply bind_ok in H as (email & Hemail & H).
  apply bind_ok in H as (realm_access & Hra & H).
  apply bind_ok in H as (roles & Hroles & H).
  apply bind_ok in H as (scope & Hscope & H).
  apply bind_ok in H as (r1 & H1 & H).
  apply bind_ok in H as (r2 & H2 & H).
  apply bind_ok in H as (joined & Hj & H).
  apply bind_ok in H as (r3 & H3 & H).
  apply bind_ok in H as (r4 & H4 & H).
  injection H as <-.
  apply set_header_inv in H1 as [_ ->].
  apply set_header_inv in H2 as [_ ->].
  apply set_header_inv in H3 as [_ ->].
  apply set_header_inv in H4 as [_ ->].
  exists token_info, active, sub, email, realm_access, roles, scope, joined.
  repeat (split; [assumption |]). reflexivity.
Qed.

(** Every answer the handler returns is a 200 from the [try] block or a
    401 of shape [rejection]. *)
Lemma verify_token_cases (authorization : option string) (r : Response)
      (calls : list string) :
  verify_token rt KEYCLOAK_URL KEYCLOAK_REALM introspect_token authorization
  = (Ok r, calls) ->
  let h := match authorization with Some h => h | None => EmptyString end in
  (startswith h "Bearer " = false /\ calls = [] /\
   r = rejection KEYCLOAK_URL KEYCLOAK_REALM
         "Bearer token required" "Bearer token required")
  \/ (startswith h "Bearer " = true /\ calls = [str_drop 7 h] /\
      introspect_and_authorize rt introspect_token (str_drop 7 h) = Ok r /\
      status_code r = 200%Z)
  \/ (exists e, startswith h "Bearer " = true /\ calls = [str_drop 7 h] /\
      introspect_and_authorize rt introspect_token (str_drop 7 h) = Raise e /\
      r = rejection KEYCLOAK_URL KEYCLOAK_REALM (str_exn e) "Token validation failed").
Proof.
  intros H h. unfold verify_token in H. fold h in H.
  destruct (startswith h "Bearer ") eqn:Hp; cbn [negb] in H.
  - destruct (introspect_and_authorize rt introspect_token (str_drop 7 h))
      as [resp | e] eqn:Hb.
    + injection H as <- <-. right; left. repeat split.
      apply authorize_inv in Hb as (? & ? & ? & ? & ? & ? & ? & ? & Hb).
      destruct Hb as (_ & _ & _ & _ & _ & _ & _ & _ & _ & ->). reflexivity.
    + injection H as H <-. right; right. exists e. repeat split.
      apply reject_exception_inv. exact H.
  - injection H as H <-. left. repeat split.
    apply reject_missing_bearer_inv. exact H.
Qed.

(** The configuration is fit for a header: no CR or LF in the URL and
    realm the challenge quotes. *)
Hypothesis url_safe : header_safe KEYCLOAK_URL = true.
Hypothesis realm_safe : header_safe KEYCLOAK_REALM = true.

Lemma challenge_safe (d : string) :
  header_safe d = true ->
  header_safe (www_authenticate KEYCLOAK_URL KEYCLOAK_REALM d) = true.
Proof.
  intros H. unfold www_authenticate, auth_url, discovery_url.
  rewrite !header_safe_app, url_safe, realm_safe, H. reflexivity.
Qed.

Lemma reject_missing_bearer_ok :
  reject_missing_bearer rt KEYCLOAK_URL KEYCLOAK_REALM
  = Ok (rejection KEYCLOAK_URL KEYCLOAK_REALM
          "Bearer token required" "Bearer token required").
Proof.
  unfold reject_missing_bearer. rewrite set_header_ok.
  - reflexivity.
  - apply challenge_safe. reflexivity.
Qed.

Lemma reject_exception_ok (e : exn) :
  reject_exception rt KEYCLOAK_URL KEYCLOAK_REALM e
  = Ok (rejection KEYCLOAK_URL KEYCLOAK_REALM (str_exn e) "Token validation failed").
Proof.
  unfold reject_exception. rewrite set_header_ok.
  - reflexivity.
  - apply challenge_safe. reflexivity.
Qed.

(** A request with the bearer prefix whose [try] block raises [e]. *)
Lemma verify_token_raise (token : string) (e : exn) :
  introspect_and_authorize rt introspect_token token = Raise e ->
  verify_token rt KEYCLOAK_URL KEYCLOAK_REALM introspect_token
               (Some ("Bearer " ++ token))
  = (Ok (rejection KEYCLOAK_URL KEYCLOAK_REALM (str_exn e) "Token validation failed"),
     [token]).
Proof.
  intros H. unfold verify_token.
  rewrite startswith_bearer, str_drop_bearer, H. cbn [negb].
  rewrite reject_exception_ok. reflexivity.
Qed.


Lemma authorize_inactive (token : string) (token_info active : json) :
  introspect_token token = Ok token_info ->
  py_get token_info "active" (JBool false) = Ok active ->
  truthy active = false ->
  introspect_and_authorize rt introspect_token token
  = Raise (ValueError "Token is not active").
Proof.
  intros Hi Ha Ht. unfold introspect_and_authorize.
  rewrite Hi. cbn [bind]. rewrite Ha. cbn [bind]. rewrite Ht. reflexivity.
Qed.



(** C3. A request with no [Authorization] header, or one that does not
    start with the prefix [Bearer ] (with its space), is answered 401 with
    a [WWW-Authenticate] header that contains [error="invalid_token"] and
    the JSON body of keys [error], [error_description],
    [authorization_uri], [discovery_uri]; introspection is not called: no
    token is sent, and the answer is the same under any other authority. *)
Theorem missing_bearer_rejected (authorization : option string) :
  authorization = None
  \/ (exists h, authorization = Some h /\ startswith h "Bearer " = false) ->
  exists resp,
    verify_token rt KEYCLOAK_URL KEYCLOAK_REALM introspect_token authorization
    = (Ok resp, []) /\
    status_code resp = 401%Z /\
    (exists pre post,
        header (headers resp) "WWW-Authenticate"
        = Some (pre ++ "error=" ++ dq ++ "invalid_token" ++ dq ++ post)) /\
    body resp
    = JObj [("error", JStr "unauthorized");
            ("error_description", JStr "Bearer token required");
            ("authorization_uri", JStr (auth_url KEYCLOAK_URL KEYCLOAK_REALM));
            ("discovery_uri", JStr (discovery_url KEYCLOAK_URL KEYCLOAK_REALM))] /\
    (forall other : string -> result json,
        verify_token rt KEYCLOAK_URL KEYCLOAK_REALM other authorization
        = (Ok resp, [])).
Proof.
  intros H.
  assert (Hp : startswith
                 (match authorization with Some h => h | None => EmptyString end)
                 "Bearer " = false).
  { destruct H as [-> | (h & -> & Hh)]; [reflexivity | exact Hh]. }
  exists (rejection KEYCLOAK_URL KEYCLOAK_REALM
            "Bearer token required" "Bearer token required").
  assert (V : forall f,
             verify_token rt KEYCLOAK_URL KEYCLOAK_REALM f authorization
             = (Ok (rejection KEYCLOAK_URL KEYCLOAK_REALM
                      "Bearer token required" "Bearer token required"), [])).
  { intros f. unfold verify_token. rewrite Hp. cbn [negb].
    rewrite reject_missing_bearer_ok. reflexivity. }
  split; [apply V |]. split; [reflexivity |]. split; [| split; [reflexivity | exact V]].
  exists ("Bearer realm=" ++ dq ++ "mcp-gateway" ++ dq ++ ", ").
  exists (", " ++ "error_description=" ++ dq ++ "Bearer token required" ++ dq ++ ", "
          ++ "authorization_uri=" ++ dq ++ auth_url KEYCLOAK_URL KEYCLOAK_REALM
          ++ dq ++ ", "
          ++ "discovery_uri=" ++ dq ++ discovery_url KEYCLOAK_URL KEYCLOAK_REALM
          ++ dq).
  reflexivity.
Qed.

(** C4. A token whose introspection result has no [active] field, or a
    falsy one ([false] in particular), is answered 401; and no 401 answer
    of the handler, whatever led to it, carries any of [X-User-Sub],
    [X-User-Email], [X-User-Roles], [X-User-Scopes]. *)
Theorem inactive_rejected_without_identity :
  (forall (token : string) (token_info active : json),
      introspect_token token = Ok token_info ->
      py_get token_info "active" (JBool false) = Ok active ->
      truthy active = false ->
      exists resp,
        verify_token rt KEYCLOAK_URL KEYCLOAK_REALM introspect_token
                     (Some ("Bearer " ++ token)) = (Ok resp, [token]) /\
        status_code resp = 401%Z)
  /\
  (forall (authorization : option string) (resp : Response) (calls : list string),
      verify_token rt KEYCLOAK_URL KEYCLOAK_REALM introspect_token authorization
      = (Ok resp, calls) ->
      status_code resp = 401%Z ->
      no_identity_header resp = true /\
      header (headers resp) "X-User-Sub" = None /\
      header (headers resp) "X-User-Email" = None /\
      header (headers resp) "X-User-Roles" = None /\
      header (headers resp) "X-User-Scopes" = None).
Proof.
  split.
  - intros token token_info active Hi Ha Ht.
    eexists. split.
    + apply verify_token_raise. eapply authorize_inactive; eassumption.
    + reflexivity.
  - intros authorization resp calls H S.
    apply verify_token_cases in H. cbv zeta in H.
    destruct H as [(_ & _ & ->) | [(_ & _ & _ & S200) | (e & _ & _ & _ & ->)]].
    + repeat split.
    + rewrite S200 in S. discriminate S.
    + repeat split.
Qed.



End Gateway.

(** ** The gateway on concrete requests *)

Import Samples.



(** The theorem of C3 at a Basic credential. *)
Lemma missing_bearer_rejected_witness :
  exists resp,
    verify_token demo_runtime demo_url demo_realm introspect_active
                 (Some "Basic dXNlcjpwdw==") = (Ok resp, []) /\
    status_code resp = 401%Z.
Proof.
  destruct (missing_bearer_rejected
              demo_runtime demo_url demo_realm introspect_active
              eq_refl eq_refl (Some "Basic dXNlcjpwdw=="))
    as (resp & V & S & _).
  - right. exists "Basic dXNlcjpwdw==". split; reflexivity.
  - exists resp. split; [exact V | exact S].
Defined.

(** The theorem of C4 at a token the authority reports inactive. *)
Lemma inactive_rejected_without_identity_witness :
  exists resp,
    verify_token demo_runtime demo_url demo_realm introspect_inactive
                 (Some "Bearer expired") = (Ok resp, ["expired"]) /\
    status_code resp = 401%Z /\
    no_identity_header resp = true.
Proof.
  destruct (inactive_rejected_without_identity
              demo_runtime demo_url demo_realm introspect_inactive
              eq_refl eq_refl) as [P1 P2].
  destruct (P1 "expired" (JObj [("active", JBool false)]) (JBool false)
               eq_refl eq_refl eq_refl) as (resp & V & S).
  exists resp. split; [exact V |]. split; [exact S |].
  exact (proj1 (P2 _ _ _ V S)).
Defined.


(** A failure after [X-User-Sub] and [X-User-Email] were set: the 401 is
    built afresh, so neither header survives. *)
Example partial_headers_are_dropped :
  verify_token demo_runtime demo_url demo_realm introspect_odd_roles
               (Some "Bearer abc")
  = (Ok (rejection demo_url demo_realm
           "sequence item 0: expected str instance, int found"
           "Token validation failed"),
     ["abc"]).
Proof. reflexivity. Qed.



End AuthServiceSpec.

(* ================================================================== *)
(** * The JSON-RPC dispatchers                                         *)
(* ================================================================== *)

Module DispatchSpec.
Import Py PyFacts JsonRpc.

Ltac envelope := intros H; injection H as <-; repeat split.

(** ** Calculator *)

Lemma calc_tools_call (rt : Runtime) (r : JsonRpcRequest) (h : Headers) :
  method r = "tools/call" ->
  CalculatorServer.mcp_endpoint rt (Ok r) h
  = if negb (CalculatorServer.check_scope (CalculatorServer.effective_scopes h)
                                         "calculator:read")
    then Ok (return_dict (rpc_error (json_of_id (id r)) (-32600)
                                    "Insufficient permissions"
                                    "Required scope: calculator:read"))
    else match CalculatorServer.execute_tool rt (param_name r) (param_arguments r) with
         | Raise e => Raise e
         | Ok None =>
             Ok (return_dict (rpc_error (json_of_id (id r)) (-32601) "Method not found"
                                        ("Unknown tool: " ++ py_str rt (param_name r))))
         | Ok (Some text) =>
             Ok (return_dict
                   (rpc_result (json_of_id (id r))
                      (tool_result text
                         (header_default "anonymous" (X_User_Sub h))
                         (header_default EmptyString (X_User_Email h)))))
         end.
Proof.
  intros Hm. unfold CalculatorServer.mcp_endpoint. rewrite Hm.
  change (String.eqb "tools/call" "tools/list") with false.
  change (String.eqb "tools/call" "tools/call") with true.
  cbv iota.
  fold (param_name r). fold (param_arguments r).
  fold (CalculatorServer.effective_scopes h).
  destruct (CalculatorServer.check_scope (CalculatorServer.effective_scopes h)
                                         "calculator:read"); [| reflexivity].
  cbn [negb].
  destruct (CalculatorServer.execute_tool rt (param_name r) (param_arguments r))
    as [[text |] | e]; reflexivity.
Qed.

Lemma calc_returned (rt : Runtime) (parsed : result JsonRpcRequest) (h : Headers)
      (resp : HttpResponse) :
  CalculatorServer.mcp_endpoint rt parsed h = Ok resp -> well_formed parsed resp.
Proof.
  destruct parsed as [r | e]; [| unfold CalculatorServer.mcp_endpoint; envelope].
  destruct (String.eqb (method r) "tools/call") eqn:Hc.
  - apply String.eqb_eq in Hc. rewrite (calc_tools_call rt r h Hc).
    destruct (CalculatorServer.check_scope _ _); cbn [negb]; [| envelope].
    destruct (CalculatorServer.execute_tool _ _ _) as [[text |] | e];
      [envelope | envelope | discriminate].
  - unfold CalculatorServer.mcp_endpoint. rewrite Hc.
    destruct (String.eqb (method r) "tools/list"); [envelope |].
    destruct (String.eqb (method r) "initialize"); envelope.
Qed.

Lemma calc_raised (rt : Runtime) (parsed : result JsonRpcRequest) (h : Headers)
      (e : exn) :
  CalculatorServer.mcp_endpoint rt parsed h = Raise e ->
  exists r,
    parsed = Ok r /\ method r = "tools/call" /\
    CalculatorServer.check_scope (CalculatorServer.effective_scopes h)
                                 "calculator:read" = true /\
    CalculatorServer.execute_tool rt (param_name r) (param_arguments r) = Raise e.
Proof.
  destruct parsed as [r | e']; [| unfold CalculatorServer.mcp_endpoint; discriminate].
  destruct (String.eqb (method r) "tools/call") eqn:Hc.
  - apply String.eqb_eq in Hc. rewrite (calc_tools_call rt r h Hc).
    destruct (CalculatorServer.check_scope _ _) eqn:Hs; cbn [negb]; [| discriminate].
    destruct (CalculatorServer.execute_tool _ _ _) as [[text |] | e''] eqn:He;
      [discriminate | discriminate |].
    intros H. injection H as ->. exists r. repeat split; assumption.
  - unfold CalculatorServer.mcp_endpoint. rewrite Hc.
    destruct (String.eqb (method r) "tools/list"); [discriminate |].
    destruct (String.eqb (method r) "initialize"); discriminate.
Qed.



(** ** Weather *)

Lemma wx_tools_call (rt : Runtime) (r : JsonRpcRequest) (h : Headers) :
  method r = "tools/call" ->
  WeatherServer.mcp_endpoint rt (Ok r) h
  = if negb (WeatherServer.check_scope (WeatherServer.effective_scopes h)
                                       "weather:read")
    then Ok (return_dict (rpc_error (json_of_id (id r)) (-32600)
                                    "Insufficient permissions"
                                    "Required scope: weather:read"))
    else match WeatherServer.execute_tool rt (param_name r) (param_arguments r) with
         | Raise e => Raise e
         | Ok None =>
             Ok (return_dict (rpc_error (json_of_id (id r)) (-32601) "Method not found"
                                        ("Unknown tool: " ++ py_str rt (param_name r))))
         | Ok (Some text) =>
             Ok (return_dict
                   (rpc_result (json_of_id (id r))
                      (tool_result text
                         (header_default "anonymous" (X_User_Sub h))
                         (header_default EmptyString (X_User_Email h)))))
         end.
Proof.
  intros Hm. unfold WeatherServer.mcp_endpoint. rewrite Hm.
  change (String.eqb "tools/call" "tools/list") with false.
  change (String.eqb "tools/call" "tools/call") with true.
  cbv iota.
  fold (param_name r). fold (param_arguments r).
  fold (WeatherServer.effective_scopes h).
  destruct (WeatherServer.check_scope (WeatherServer.effective_scopes h)
                                       "weather:read"); [| reflexivity].
  cbn [negb].
  destruct (WeatherServer.execute_tool rt (param_name r) (param_arguments r))
    as [[text |] | e]; reflexivity.
Qed.

Lemma wx_returned (rt : Runtime) (parsed : result JsonRpcRequest) (h : Headers)
      (resp : HttpResponse) :
  WeatherServer.mcp_endpoint rt parsed h = Ok resp -> well_formed parsed resp.
Proof.
  destruct parsed as [r | e]; [| unfold WeatherServer.mcp_endpoint; envelope].
  destruct (String.eqb (method r) "tools/call") eqn:Hc.
  - apply String.eqb_eq in Hc. rewrite (wx_tools_call rt r h Hc).
    destruct (WeatherServer.check_scope _ _); cbn [negb]; [| envelope].
    destruct (WeatherServer.execute_tool _ _ _) as [[text |] | e];
      [envelope | envelope | discriminate].
  - unfold WeatherServer.mcp_endpoint. rewrite Hc.
    destruct (String.eqb (method r) "tools/list"); [envelope |].
    destruct (String.eqb (method r) "initialize"); envelope.
Qed.

Lemma wx_raised (rt : Runtime) (parsed : result JsonRpcRequest) (h : Headers)
      (e : exn) :
  WeatherServer.mcp_endpoint rt parsed h = Raise e ->
  exists r,
    parsed = Ok r /\ method r = "tools/call" /\
    WeatherServer.check_scope (WeatherServer.effective_scopes h)
                               "weather:read" = true /\
    WeatherServer.execute_tool rt (param_name r) (param_arguments r) = Raise e.
Proof.
  destruct parsed as [r | e']; [| unfold WeatherServer.mcp_endpoint; discriminate].
  destruct (String.eqb (method r) "tools/call") eqn:Hc.
  - apply String.eqb_eq in Hc. rewrite (wx_tools_call rt r h Hc).
    destruct (WeatherServer.check_scope _ _) eqn:Hs; cbn [negb]; [| discriminate].
    destruct (WeatherServer.execute_tool _ _ _) as [[text |] | e''] eqn:He;
      [discriminate | discriminate |].
    intros H. injection H as ->. exists r. repeat split; assumption.
  - unfold WeatherServer.mcp_endpoint. rewrite Hc.
    destruct (String.eqb (method r) "tools/list"); [discriminate |].
    destruct (String.eqb (method r) "initialize"); discriminate.
Qed.

(** ** Scopes *)



(** [get_user_scopes] falls back to the default on the empty string, so
    the header's own default and an empty header both give the default. *)
Lemma calc_effective_scopes (h : Headers) :
  CalculatorServer.effective_scopes h
  = match X_User_Scopes h with
    | None | Some EmptyString => ["calculator:read"]
    | Some s => split SPACE s
    end.
Proof.
  unfold CalculatorServer.effective_scopes, CalculatorServer.get_user_scopes.
  destruct (X_User_Scopes h) as [[| c s] |]; reflexivity.
Qed.

Lemma wx_effective_scopes (h : Headers) :
  WeatherServer.effective_scopes h
  = match X_User_Scopes h with
    | None | Some EmptyString => ["weather:read"]
    | Some s => split SPACE s
    end.
Proof.
  unfold WeatherServer.effective_scopes, WeatherServer.get_user_scopes.
  destruct (X_User_Scopes h) as [[| c s] |]; reflexivity.
Qed.

Import Samples.

(** ** Scope enforcement on [tools/call] *)




(** ** Parse failure and HTTP status *)




(** ** Domain errors of the calculator *)




(** ** The response envelope *)

(** C8 (amended). Every answer either handler returns carries
    exactly one of [result] and [error], and its [id] is that of the
    validated request ([rpc_request.id]), or null when the body did not
    parse.  A handler returns no answer at all only when the execution
    of a tool raises. *)
Theorem envelope_invariant (rt : Runtime) (parsed : result JsonRpcRequest)
        (h : Headers) :
  (forall resp,
      CalculatorServer.mcp_endpoint rt parsed h = Ok resp ->
      xorb (populated (content resp) "result") (populated (content resp) "error") = true
      /\ envelope_get (content resp) "id"
         = Some (match parsed with Ok r => json_of_id (id r) | Raise _ => JNull end))
  /\ (forall resp,
         WeatherServer.mcp_endpoint rt parsed h = Ok resp ->
         xorb (populated (content resp) "result") (populated (content resp) "error") = true
         /\ envelope_get (content resp) "id"
            = Some (match parsed with Ok r => json_of_id (id r) | Raise _ => JNull end))
  /\ (forall e,
         CalculatorServer.mcp_endpoint rt parsed h = Raise e ->
         exists r, parsed = Ok r /\ method r = "tools/call" /\
                   CalculatorServer.execute_tool rt (param_name r) (param_arguments r)
                   = Raise e)
  /\ (forall e,
         WeatherServer.mcp_endpoint rt parsed h = Raise e ->
         exists r, parsed = Ok r /\ method r = "tools/call" /\
                   WeatherServer.execute_tool rt (param_name r) (param_arguments r)
                   = Raise e).
Proof.
  split; [| split; [| split]].
  - intros resp H. apply calc_returned in H. exact (proj2 H).
  - intros resp H. apply wx_returned in H. exact (proj2 H).
  - intros e H. apply calc_raised in H as (r & Hr & Hm & _ & He).
    exists r. repeat split; assumption.
  - intros e H. apply wx_raised in H as (r & Hr & Hm & _ & He).
    exists r. repeat split; assumption.
Qed.

(** The theorem of C8 at a body that did not parse, and at a call that
    lacks the scope. *)
Lemma envelope_invariant_witness :
  (let resp := JSONResponse 400 (rpc_error JNull (-32700) "Parse error" "Expecting value") in
   xorb (populated (content resp) "result") (populated (content resp) "error") = true
   /\ envelope_get (content resp) "id" = Some JNull)
  /\ (exists resp,
         WeatherServer.mcp_endpoint
           demo_runtime (Ok (tools_call 5 "get_uv_index" (JObj [])))
           {| X_User_Sub := None; X_User_Email := None; X_User_Roles := None;
              X_User_Scopes := Some "profile" |} = Ok resp
         /\ xorb (populated (content resp) "result") (populated (content resp) "error")
            = true
         /\ envelope_get (content resp) "id" = Some (JInt 5)).
Proof.
  split.
  - exact (proj1 (envelope_invariant
                    demo_runtime
                    (Raise (OtherError "JSONDecodeError" "Expecting value"))
                    no_headers)
                 _ eq_refl).
  - exists (return_dict (rpc_error (JInt 5) (-32600) "Insufficient permissions"
                                   "Required scope: weather:read")).
    split; [reflexivity |].
    exact (proj1 (proj2 (envelope_invariant
                           demo_runtime
                           (Ok (tools_call 5 "get_uv_index" (JObj [])))
                           {| X_User_Sub := None; X_User_Email := None;
                              X_User_Roles := None; X_User_Scopes := Some "profile" |}))
                 _ eq_refl).
Defined.

(** C8 as stated fails: a parsed [tools/call] whose [arguments] is a
    list, or a string, has an outcome with no envelope at all, neither
    [result] nor [error] nor [id]: the [AttributeError] of
    [arguments.get] leaves the handler. *)
Lemma raising_call_has_no_envelope :
  WeatherServer.mcp_endpoint
    demo_runtime (Ok (tools_call 2 "get_weather_alerts" (JArr []))) no_headers
  = Raise (AttributeError "'list' object has no attribute 'get'")
  /\ result_of (WeatherServer.mcp_endpoint
                  demo_runtime (Ok (tools_call 2 "get_weather_alerts" (JArr [])))
                  no_headers) = None
  /\ CalculatorServer.mcp_endpoint
       demo_runtime (Ok (tools_call 2 "sqrt" (JStr "4"))) no_headers
     = Raise (AttributeError "'str' object has no attribute 'get'")
  /\ result_of (CalculatorServer.mcp_endpoint
                  demo_runtime (Ok (tools_call 2 "sqrt" (JStr "4"))) no_headers)
     = None.
Proof. repeat split. Qed.

(** ** The tool registry *)


End DispatchSpec.

(* ================================================================== *)
(** * Further properties of the gateway                                *)
(* ================================================================== *)

Module GatewayExtras.
Import Py PyFacts Requests AuthService AuthServiceSpec AuthClient.

Lemma bearer_form (authorization : option string) :
  startswith (match authorization with Some h => h | None => EmptyString end)
             "Bearer " = true ->
  authorization
  = Some ("Bearer " ++ str_drop 7 (match authorization with
                                   | Some h => h
                                   | None => EmptyString
                                   end)).
Proof.
  destruct authorization as [h |]; [| discriminate].
  intros H. f_equal. exact (startswith_split "Bearer " h H).
Qed.

Section Gateway.

Variable rt : Runtime.
Variable KEYCLOAK_URL : string.
Variable KEYCLOAK_REALM : string.
Variable introspect_token : string -> result json.

(** X1. The gateway answers 200 only for a request of the form
    [Bearer <token>] whose token introspection, called once with exactly
    that token, answered with a JSON object holding a truthy [active] and
    joinable roles; the 200 then carries those roles. *)
Theorem authorizes_only_active
    (authorization : option string) (resp : Response) (calls : list string) :
  verify_token rt KEYCLOAK_URL KEYCLOAK_REALM introspect_token authorization
  = (Ok resp, calls) ->
  status_code resp = 200%Z ->
  exists token d active realm_access roles joined,
    authorization = Some ("Bearer " ++ token) /\
    calls = [token] /\
    introspect_token token = Ok (JObj d) /\
    py_get (JObj d) "active" (JBool false) = Ok active /\
    truthy active = true /\
    py_get (JObj d) "realm_access" (JObj []) = Ok realm_access /\
    py_get realm_access "roles" (JArr []) = Ok roles /\
    py_join "," roles = Ok joined /\
    header (headers resp) "X-User-Roles" = Some joined.
Proof.
  intros H S. apply verify_token_cases in H. cbv zeta in H.
  destruct H as [(_ & _ & ->) | [(Hp & Hc & Hb & _) | (e & _ & _ & _ & ->)]];
    [discriminate S | | discriminate S].
  apply authorize_inv in Hb
    as (token_info & active & sub & email & ra & roles & scope & joined
        & Hi & Ha & Ht & _ & _ & Hra & Hroles & _ & Hj & ->).
  destruct token_info as [| | | | | | d]; try discriminate Ha.
  exists (str_drop 7 (match authorization with Some h => h | None => EmptyString end)).
  exists d, active, ra, roles, joined.
  split; [apply bearer_form; exact Hp |].
  repeat (split; [assumption |]). reflexivity.
Qed.

(** X3. No header value of any answer of the gateway holds CR or LF,
    whatever the claims and the configuration: a claim cannot add a
    header line to the response. *)
Theorem no_header_injection
    (authorization : option string) (resp : Response) (calls : list string) :
  verify_token rt KEYCLOAK_URL KEYCLOAK_REALM introspect_token authorization
  = (Ok resp, calls) ->
  forall k v, In (k, v) (headers resp) -> header_safe v = true.
Proof.
  assert (R : forall body_description r description,
             set_header rt (set_status (jsonify (unauthorized_body
                                                   KEYCLOAK_URL KEYCLOAK_REALM
                                                   body_description)) 401)
                        "WWW-Authenticate" (JStr description) = Ok r ->
             forall k v, In (k, v) (headers r) -> header_safe v = true).
  { intros bd r d H k v Hin. apply set_header_inv in H as [S ->].
    cbn in Hin. destruct Hin as [E | [E | []]]; injection E as _ <-;
      [reflexivity | exact S]. }
  unfold verify_token.
  destruct (startswith _ "Bearer "); cbn [negb].
  - destruct (introspect_and_authorize rt introspect_token _) as [r | e] eqn:Hb.
    + intros H. injection H as <- _. clear R.
      unfold introspect_and_authorize in Hb.
      apply bind_ok in Hb as (token_info & Hi & H).
      apply bind_ok in H as (active & Ha & H).
      destruct (truthy active); cbn [negb] in H; [| discriminate H].
      apply bind_ok in H as (sub & _ & H).
      apply bind_ok in H as (email & _ & H).
      apply bind_ok in H as (ra & _ & H).
      apply bind_ok in H as (roles & _ & H).
      apply bind_ok in H as (scope & _ & H).
      apply bind_ok in H as (r1 & H1 & H).
      apply bind_ok in H as (r2 & H2 & H).
      apply bind_ok in H as (joined & _ & H).
      apply bind_ok in H as (r3 & H3 & H).
      apply bind_ok in H as (r4 & H4 & H).
      injection H as <-.
      apply set_header_inv in H1 as [S1 ->].
      apply set_header_inv in H2 as [S2 ->].
      apply set_header_inv in H3 as [S3 ->].
      apply set_header_inv in H4 as [S4 ->].
      intros k v Hin. cbn in Hin.
      destruct Hin as [E | [E | [E | [E | [E | []]]]]]; injection E as _ <-;
        [reflexivity | assumption | assumption | assumption | assumption].
    + intros H. injection H as H _. unfold reject_exception in H.
      exact (R _ _ _ H).
  - intros H. injection H as H _. unfold reject_missing_bearer in H.
    exact (R _ _ _ H).
Qed.

Hypothesis url_safe : header_safe KEYCLOAK_URL = true.
Hypothesis realm_safe : header_safe KEYCLOAK_REALM = true.

(** X2. With a configuration fit for a header, no exception leaves the
    handler: every request is answered, with 200 or 401, after at most
    one call to introspection. *)
Theorem verify_always_answers (authorization : option string) :
  exists resp calls,
    verify_token rt KEYCLOAK_URL KEYCLOAK_REALM introspect_token authorization
    = (Ok resp, calls) /\
    (status_code resp = 200%Z \/ status_code resp = 401%Z) /\
    (calls = [] \/ exists token, calls = [token]).
Proof.
  unfold verify_token.
  destruct (startswith _ "Bearer "); cbn [negb].
  - destruct (introspect_and_authorize rt introspect_token _) as [r | e] eqn:Hb.
    + exists r. eexists. split; [reflexivity |]. split.
      * left. apply authorize_inv in Hb as (? & ? & ? & ? & ? & ? & ? & ? & Hb).
        destruct Hb as (_ & _ & _ & _ & _ & _ & _ & _ & _ & ->). reflexivity.
      * right. eexists. reflexivity.
    + rewrite (reject_exception_ok rt KEYCLOAK_URL KEYCLOAK_REALM url_safe realm_safe).
      eexists. eexists. split; [reflexivity |]. split; [right; reflexivity |].
      right. eexists. reflexivity.
  - rewrite (reject_missing_bearer_ok rt KEYCLOAK_URL KEYCLOAK_REALM url_safe realm_safe).
    eexists. eexists. split; [reflexivity |]. split; [right; reflexivity |].
    left. reflexivity.
Qed.

End Gateway.

(** ** Introspection over HTTP *)



Section OverHttp.

Variable rt : Runtime.
Variable KEYCLOAK_URL : string.
Variable KEYCLOAK_REALM : string.
Variable KEYCLOAK_CLIENT_ID : string.
Variable KEYCLOAK_CLIENT_SECRET : string.
Variable requests_post : Post.

Hypothesis url_safe : header_safe KEYCLOAK_URL = true.
Hypothesis realm_safe : header_safe KEYCLOAK_REALM = true.


End OverHttp.

(** ** The key cache *)

(** X4. Once [get_keycloak_jwks] has returned keys other than null they
    are cached for good: every later call returns them without any
    request, whatever the key server would answer.  A call that raises
    leaves the cache empty, so the next call fetches again; a fetched
    null is returned and not cached; and no call makes more than the one
    request to the certs URL. *)
Theorem jwks_cache_behaviour (KEYCLOAK_URL KEYCLOAK_REALM : string) :
  (forall (get get' : Get) cache keys cache' fetched,
      get_keycloak_jwks KEYCLOAK_URL KEYCLOAK_REALM get cache
      = (Ok keys, cache', fetched) ->
      keys <> JNull ->
      cache' = keys
      /\ get_keycloak_jwks KEYCLOAK_URL KEYCLOAK_REALM get' cache'
         = (Ok keys, keys, []))
  /\ (forall (get : Get) cache e cache' fetched,
        get_keycloak_jwks KEYCLOAK_URL KEYCLOAK_REALM get cache
        = (Raise e, cache', fetched) ->
        cache = JNull /\ cache' = JNull
        /\ fetched = [jwks_url KEYCLOAK_URL KEYCLOAK_REALM])
  /\ (forall (get : Get) cache cache' fetched,
        get_keycloak_jwks KEYCLOAK_URL KEYCLOAK_REALM get cache
        = (Ok JNull, cache', fetched) ->
        cache' = JNull /\ fetched = [jwks_url KEYCLOAK_URL KEYCLOAK_REALM])
  /\ (forall (get : Get) cache outcome cache' fetched,
        get_keycloak_jwks KEYCLOAK_URL KEYCLOAK_REALM get cache
        = (outcome, cache', fetched) ->
        (fetched = [] /\ cache <> JNull)
        \/ (fetched = [jwks_url KEYCLOAK_URL KEYCLOAK_REALM] /\ cache = JNull)).
Proof.
  assert (Hit : forall (get : Get) cache,
             cache <> JNull ->
             get_keycloak_jwks KEYCLOAK_URL KEYCLOAK_REALM get cache
             = (Ok cache, cache, [])).
  { intros get cache N. destruct cache; try reflexivity. contradiction. }
  assert (Miss : forall (get : Get) outcome cache' fetched,
             get_keycloak_jwks KEYCLOAK_URL KEYCLOAK_REALM get JNull
             = (outcome, cache', fetched) ->
             fetched = [jwks_url KEYCLOAK_URL KEYCLOAK_REALM]
             /\ match outcome with
                | Ok keys => cache' = keys
                | Raise _ => cache' = JNull
                end).
  { intros get outcome cache' fetched H. unfold get_keycloak_jwks in H.
    destruct (get _ _) as [response | e]; [| injection H as <- <- <-; split; reflexivity].
    destruct (raise_for_status response) as [[] | e];
      [| injection H as <- <- <-; split; reflexivity].
    destruct (reply_json response) as [keys | e];
      injection H as <- <- <-; split; reflexivity. }
  assert (Dec : forall cache : json, cache = JNull \/ cache <> JNull).
  { intros cache. destruct cache; (left; reflexivity) || (right; discriminate). }
  split; [| split; [| split]].
  - intros get get' cache keys cache' fetched H N.
    assert (cache' = keys) as ->.
    { destruct (Dec cache) as [-> | Nc].
      - apply Miss in H. exact (proj2 H).
      - rewrite (Hit get cache Nc) in H. injection H as <- <- _. reflexivity. }
    split; [reflexivity | apply Hit; exact N].
  - intros get cache e cache' fetched H.
    destruct (Dec cache) as [-> | Nc].
    + apply Miss in H as [-> ->]. repeat split.
    + rewrite (Hit get cache Nc) in H. discriminate H.
  - intros get cache cache' fetched H.
    destruct (Dec cache) as [-> | Nc].
    + apply Miss in H as [-> ->]. split; reflexivity.
    + rewrite (Hit get cache Nc) in H. congruence.
  - intros get cache outcome cache' fetched H.
    destruct (Dec cache) as [-> | Nc].
    + right. apply Miss in H as [-> _]. split; reflexivity.
    + left. rewrite (Hit get cache Nc) in H. injection H as _ _ <-.
      split; [reflexivity | exact Nc].
Qed.

(** ** The discovery document *)

(** X6. The discovery document is consistent with what the service
    itself does: every endpoint it lists is the issuer followed by a
    path; its [authorization_endpoint] is the [authorization_uri] of
    every 401 body; its [jwks_uri] is the one URL the key cache fetches;
    and the well-known handler serves it with status 200. *)
Theorem discovery_is_consistent (KEYCLOAK_URL KEYCLOAK_REALM : string) :
  let doc := get_discovery_metadata KEYCLOAK_URL KEYCLOAK_REALM in
  dict_get doc "issuer" = Some (JStr (realm_url KEYCLOAK_URL KEYCLOAK_REALM))
  /\ (forall k,
        In k ["authorization_endpoint"; "token_endpoint"; "introspection_endpoint";
              "userinfo_endpoint"; "end_session_endpoint"; "jwks_uri";
              "registration_endpoint"] ->
        exists path,
          dict_get doc k
          = Some (JStr (realm_url KEYCLOAK_URL KEYCLOAK_REALM ++ path)))
  /\ (forall description,
        dict_get doc "authorization_endpoint"
        = envelope_get_auth
            (unauthorized_body KEYCLOAK_URL KEYCLOAK_REALM description))
  /\ dict_get doc "jwks_uri" = Some (JStr (jwks_url KEYCLOAK_URL KEYCLOAK_REALM))
  /\ oauth_discovery KEYCLOAK_URL KEYCLOAK_REALM
      = {| status_code := 200; body := JObj doc;
           headers := [("Content-Type", "application/json")] |}.
Proof.
  intros doc.
  split; [reflexivity |]. split; [| split; [reflexivity | split; reflexivity]].
  intros k Hk. unfold realm_url.
  cbn in Hk.
  destruct Hk as [<- | [<- | [<- | [<- | [<- | [<- | [<- | []]]]]]]];
    eexists; cbn; rewrite !append_assoc; reflexivity.
Qed.

(** ** The further properties on concrete requests *)

Import Samples Network.

Lemma authorizes_only_active_witness :
  exists token d,
    Some "Bearer abc" = Some ("Bearer " ++ token)
    /\ introspect_active token = Ok (JObj d)
    /\ dict_get d "active" = Some (JBool true).
Proof.
  destruct (authorizes_only_active
              demo_runtime demo_url demo_realm introspect_active
              (Some "Bearer abc")
              (authorized "u-42" "ada@example.org" "user,admin" "openid weather:read")
              ["abc"] eq_refl eq_refl)
    as (token & d & active & _ & _ & _ & E & _ & Hi & _).
  exists token, d. split; [exact E |]. split; [exact Hi |].
  unfold introspect_active in Hi. injection Hi as <-. reflexivity.
Defined.

Lemma no_header_injection_witness :
  header_safe "Bearer realm=" = true
  /\ forall k v,
       In (k, v) (headers (rejection demo_url demo_realm "connection refused"
                                     "Token validation failed")) ->
       header_safe v = true.
Proof.
  split; [reflexivity |].
  exact (no_header_injection
           demo_runtime demo_url demo_realm introspect_down
           (Some "Bearer abc") _ ["abc"] eq_refl).
Defined.

Lemma verify_always_answers_witness :
  exists resp calls,
    verify_token demo_runtime demo_url demo_realm introspect_odd_roles
                 (Some "Bearer abc") = (Ok resp, calls)
    /\ (status_code resp = 200%Z \/ status_code resp = 401%Z)
    /\ (calls = [] \/ exists token, calls = [token]).
Proof.
  exact (verify_always_answers
           demo_runtime demo_url demo_realm introspect_odd_roles
           eq_refl eq_refl (Some "Bearer abc")).
Defined.


Lemma jwks_cache_behaviour_witness :
  exists keys,
    keys <> JNull
    /\ fst (fst (get_keycloak_jwks demo_url demo_realm jwks_ok JNull)) = Ok keys
    /\ get_keycloak_jwks demo_url demo_realm jwks_down keys = (Ok keys, keys, []).
Proof.
  exists (JObj [("keys", JArr [JObj [("kid", JStr "k1")]])]).
  split; [discriminate |]. split; [reflexivity |].
  exact (proj2 (proj1 (jwks_cache_behaviour demo_url demo_realm)
                      jwks_ok jwks_down JNull _ _ _ eq_refl
                      ltac:(discriminate))).
Defined.

End GatewayExtras.

(* ================================================================== *)
(** * Further properties of the dispatchers                            *)
(* ================================================================== *)

Module DispatchExtras.
Import Py PyFacts JsonRpc ServerInfo DispatchSpec.

Lemma str_is_eq (v : json) (s : string) : str_is v s = true <-> v = JStr s.
Proof.
  destruct v; simpl; split; intros H; try discriminate H.
  - apply String.eqb_eq in H. subst. reflexivity.
  - injection H as ->. apply String.eqb_refl.
Qed.


Lemma wx_registered_iff (name : json) :
  WeatherServer.registered name = true
  <-> In (Some name) (tool_names WeatherServer.MCP_TOOLS).
Proof.
  unfold WeatherServer.registered. cbn [existsb]. rewrite !orb_true_iff, !str_is_eq.
  cbn. split.
  - intros [-> | [-> | [-> | C]]]; [tauto .. | discriminate C].
  - intros [E | [E | [E | []]]]; injection E as <-; tauto.
Qed.

Lemma wx_execute_unknown (rt : Runtime) (tool_name arguments : json) :
  WeatherServer.registered tool_name = false ->
  WeatherServer.execute_tool rt tool_name arguments = Ok None.
Proof.
  unfold WeatherServer.registered, WeatherServer.execute_tool. cbn [existsb].
  destruct (str_is tool_name "get_weather_forecast"); [discriminate |].
  destruct (str_is tool_name "get_weather_alerts"); [discriminate |].
  destruct (str_is tool_name "get_uv_index"); [discriminate |].
  reflexivity.
Qed.

(** A registered weather tool reads its arguments with [.get]: on an
    object that cannot fail, on anything else it raises. *)
Lemma wx_execute_registered (rt : Runtime) (tool_name arguments : json) :
  WeatherServer.registered tool_name = true ->
  match arguments with
  | JObj _ => exists text, WeatherServer.execute_tool rt tool_name arguments
                           = Ok (Some text)
  | _ => WeatherServer.execute_tool rt tool_name arguments
         = Raise (AttributeError ("'" ++ type_name arguments
                                  ++ "' object has no attribute 'get'"))
  end.
Proof.
  unfold WeatherServer.registered, WeatherServer.execute_tool. cbn [existsb].
  intros Hr.
  destruct (str_is tool_name "get_weather_forecast");
    [destruct arguments; try reflexivity; eexists; reflexivity |].
  destruct (str_is tool_name "get_weather_alerts");
    [destruct arguments; try reflexivity; eexists; reflexivity |].
  destruct (str_is tool_name "get_uv_index");
    [destruct arguments; try reflexivity; eexists; reflexivity |].
  discriminate Hr.
Qed.

Lemma registered_dec (b : bool) : b = true \/ b = false.
Proof. destruct b; [left | right]; reflexivity. Qed.

(** ** Registry and dispatch chain *)


(** ** What the identity headers can and cannot change *)


(** X9. A call is denied exactly when it is a [tools/call] whose
    effective scopes fail the check: the decision reads
    [X-User-Scopes] alone, never the subject, the email or the roles; and
    [X-User-Roles] changes no answer at all. *)
Theorem denial_reads_scopes_only :
  (forall rt r h,
      CalculatorServer.mcp_endpoint rt (Ok r) h
      = Ok (return_dict (denied (id r) "calculator:read"))
      <-> method r = "tools/call"
          /\ CalculatorServer.check_scope (CalculatorServer.effective_scopes h)
                                          "calculator:read" = false)
  /\ (forall rt r h,
        WeatherServer.mcp_endpoint rt (Ok r) h
        = Ok (return_dict (denied (id r) "weather:read"))
        <-> method r = "tools/call"
            /\ WeatherServer.check_scope (WeatherServer.effective_scopes h)
                                          "weather:read" = false)
  /\ (forall rt parsed h roles,
        CalculatorServer.mcp_endpoint rt parsed (with_roles h roles)
        = CalculatorServer.mcp_endpoint rt parsed h
        /\ WeatherServer.mcp_endpoint rt parsed (with_roles h roles)
           = WeatherServer.mcp_endpoint rt parsed h).
Proof.
  split; [| split].
  - intros rt r h. split.
    + destruct (String.eqb (method r) "tools/call") eqn:Hc.
      * apply String.eqb_eq in Hc. rewrite (calc_tools_call rt r h Hc).
        destruct (CalculatorServer.check_scope _ _); cbn [negb];
          [| intros _; split; [exact Hc | reflexivity]].
        destruct (CalculatorServer.execute_tool _ _ _) as [[text |] | e];
          intros H; discriminate H.
      * unfold CalculatorServer.mcp_endpoint. rewrite Hc.
        destruct (String.eqb (method r) "tools/list"); [intros H; discriminate H |].
        destruct (String.eqb (method r) "initialize"); intros H; discriminate H.
    + intros [Hm Hs]. rewrite (calc_tools_call rt r h Hm), Hs. reflexivity.
  - intros rt r h. split.
    + destruct (String.eqb (method r) "tools/call") eqn:Hc.
      * apply String.eqb_eq in Hc. rewrite (wx_tools_call rt r h Hc).
        destruct (WeatherServer.check_scope _ _); cbn [negb];
          [| intros _; split; [exact Hc | reflexivity]].
        destruct (WeatherServer.execute_tool _ _ _) as [[text |] | e];
          intros H; discriminate H.
      * unfold WeatherServer.mcp_endpoint. rewrite Hc.
        destruct (String.eqb (method r) "tools/list"); [intros H; discriminate H |].
        destruct (String.eqb (method r) "initialize"); intros H; discriminate H.
    + intros [Hm Hs]. rewrite (wx_tools_call rt r h Hm), Hs. reflexivity.
  - intros rt parsed h roles. split; reflexivity.
Qed.

(** ** Arguments *)

Lemma numeric_coerces (rt : Runtime) (v : json) :
  numeric v = true -> exists f, py_float rt v = Ok f.
Proof.
  destruct v; simpl; intros H; try discriminate H.
  - eexists; reflexivity.
  - destruct (float_of_Z z); try discriminate H; eexists; reflexivity.
  - eexists; reflexivity.
Qed.

(** An argument read from an object of numeric values, with the default
    0 for a missing key, always coerces. *)
Lemma argument_coerces (rt : Runtime) (d : dict) (k : string) :
  (forall k' v, dict_get d k' = Some v -> numeric v = true) ->
  exists f, bind (py_get (JObj d) k (JInt 0)) (py_float rt) = Ok f.
Proof.
  intros H. cbn [py_get bind].
  destruct (dict_get d k) as [v |] eqn:E.
  - apply numeric_coerces. exact (H k v E).
  - eexists; reflexivity.
Qed.


(** X11. The calculator never fails on numbers: a call of [add],
    [subtract], [multiply], [divide] or [sqrt] with sufficient scope
    whose [arguments] is an object holding only floats, bools and ints
    that fit a float (missing ones included) is answered with a result
    envelope. *)
Theorem numeric_arguments_never_crash
    (rt : Runtime) (r : JsonRpcRequest) (h : Headers) (d : dict) (name : string) :
  method r = "tools/call" ->
  CalculatorServer.check_scope (CalculatorServer.effective_scopes h)
                               "calculator:read" = true ->
  param_name r = JStr name ->
  In name ["add"; "subtract"; "multiply"; "divide"; "sqrt"] ->
  param_arguments r = JObj d ->
  (forall k v, dict_get d k = Some v -> numeric v = true) ->
  exists text,
    CalculatorServer.mcp_endpoint rt (Ok r) h
    = Ok (return_dict
            (rpc_result (json_of_id (id r))
               (tool_result text
                  (header_default "anonymous" (X_User_Sub h))
                  (header_default EmptyString (X_User_Email h))))).
Proof.
  intros Hm Hs Hn Hin Hd Hnum.
  rewrite (calc_tools_call rt r h Hm), Hs, Hn, Hd. cbn [negb].
  destruct (argument_coerces rt d "a" Hnum) as (fa & Ea).
  destruct (argument_coerces rt d "b" Hnum) as (fb & Eb).
  destruct (argument_coerces rt d "number" Hnum) as (fn & En).
  unfold CalculatorServer.execute_tool.
  cbn in Hin.
  destruct Hin as [<- | [<- | [<- | [<- | [<- | []]]]]];
    simpl (str_is _ _); cbv iota;
    rewrite ?Ea, ?Eb, ?En; cbn [bind];
    rewrite ?Ea, ?Eb, ?En; cbn [bind];
    eexists; reflexivity.
Qed.

(** X12. The weather handler lets an exception out in exactly one
    case: a [tools/call] with sufficient scope of a registered tool
    whose [arguments] is not an object; the exception is the
    [AttributeError] of [arguments.get].  With an object, values of any
    type are served. *)
Theorem weather_crashes_only_on_non_object
    (rt : Runtime) (parsed : result JsonRpcRequest) (h : Headers) (e : exn) :
  WeatherServer.mcp_endpoint rt parsed h = Raise e
  <-> exists r,
        parsed = Ok r
        /\ method r = "tools/call"
        /\ WeatherServer.check_scope (WeatherServer.effective_scopes h)
                                      "weather:read" = true
        /\ In (Some (param_name r)) (tool_names WeatherServer.MCP_TOOLS)
        /\ (forall d, param_arguments r <> JObj d)
        /\ e = AttributeError ("'" ++ type_name (param_arguments r)
                                ++ "' object has no attribute 'get'").
Proof.
  split.
  - intros H. apply wx_raised in H as (r & -> & Hm & Hs & He).
    exists r. split; [reflexivity |]. split; [exact Hm |]. split; [exact Hs |].
    rewrite <- wx_registered_iff.
    destruct (registered_dec (WeatherServer.registered (param_name r))) as [E | E].
    + split; [exact E |].
      pose proof (wx_execute_registered rt (param_name r) (param_arguments r) E) as X.
      destruct (param_arguments r);
        try (rewrite X in He; injection He as <-;
             split; [intros d' D; discriminate D | reflexivity]).
      destruct X as (text & X). rewrite X in He. discriminate He.
    + rewrite (wx_execute_unknown rt _ _ E) in He. discriminate He.
  - intros (r & -> & Hm & Hs & Hr & Hd & ->).
    rewrite (wx_tools_call rt r h Hm), Hs. cbn [negb].
    apply wx_registered_iff in Hr.
    pose proof (wx_execute_registered rt (param_name r) (param_arguments r) Hr) as X.
    destruct (param_arguments r); try (rewrite X; reflexivity).
    exfalso. exact (Hd _ eq_refl).
Qed.

(** X13. A tool reads only the arguments its own schema declares,
    each with its default: on both servers two argument objects that
    agree on the [properties] keys of the tool's [inputSchema] in the
    tool list give the same outcome, so every other member is ignored
    (for [add], a differing [exponent] changes nothing), and an empty
    object stands for the defaults (0 for the calculator; Paris, FR and
    France for the weather server). *)
Theorem tools_read_declared_arguments :
  (forall rt name d1 d2,
      (forall k, In k (declared_arguments CalculatorServer.MCP_TOOLS name) ->
                 dict_get d1 k = dict_get d2 k) ->
      CalculatorServer.execute_tool rt name (JObj d1)
      = CalculatorServer.execute_tool rt name (JObj d2))
  /\ (forall rt name d1 d2,
        (forall k, In k (declared_arguments WeatherServer.MCP_TOOLS name) ->
                   dict_get d1 k = dict_get d2 k) ->
        WeatherServer.execute_tool rt name (JObj d1)
        = WeatherServer.execute_tool rt name (JObj d2))
  /\ (declared_arguments CalculatorServer.MCP_TOOLS (JStr "add") = ["a"; "b"]
      /\ declared_arguments CalculatorServer.MCP_TOOLS (JStr "power")
         = ["base"; "exponent"]
      /\ declared_arguments CalculatorServer.MCP_TOOLS (JStr "sqrt") = ["number"]
      /\ declared_arguments WeatherServer.MCP_TOOLS (JStr "get_weather_alerts")
         = ["region"])
  /\ (forall rt name,
        CalculatorServer.execute_tool rt name (JObj [])
        = CalculatorServer.execute_tool
            rt name
            (JObj (map (fun k => (k, JInt 0))
                       (declared_arguments CalculatorServer.MCP_TOOLS name))))
  /\ (forall rt name,
        WeatherServer.execute_tool rt name (JObj [])
        = WeatherServer.execute_tool
            rt name (JObj [("city", JStr "Paris"); ("country_code", JStr "FR");
                           ("region", JStr "France")])).
Proof.
  split; [| split; [| split; [| split]]].
  - intros rt name d1 d2 H.
    unfold CalculatorServer.execute_tool.
    repeat match goal with
           | |- context [if str_is name ?n then _ else _] =>
               let E := fresh "E" in
               destruct (str_is name n) eqn:E;
               [apply str_is_eq in E; subst name;
                cbn [py_get];
                repeat match goal with
                       | |- context [dict_get d1 ?k] =>
                           rewrite (H k) by (cbn; tauto)
                       end;
                reflexivity |]
           end.
    reflexivity.
  - intros rt name d1 d2 H.
    unfold WeatherServer.execute_tool.
    repeat match goal with
           | |- context [if str_is name ?n then _ else _] =>
               let E := fresh "E" in
               destruct (str_is name n) eqn:E;
               [apply str_is_eq in E; subst name;
                cbn [py_get];
                repeat match goal with
                       | |- context [dict_get d1 ?k] =>
                           rewrite (H k) by (cbn; tauto)
                       end;
                reflexivity |]
           end.
    reflexivity.
  - repeat split.
  - intros rt name.
    unfold CalculatorServer.execute_tool.
    repeat match goal with
           | |- context [if str_is name ?n then _ else _] =>
               let E := fresh "E" in
               destruct (str_is name n) eqn:E;
               [apply str_is_eq in E; subst name; reflexivity |]
           end.
    reflexivity.
  - intros rt name. reflexivity.
Qed.

(** ** Scope lists *)

Lemma split_cons (sep : ascii) (s : string) :
  exists x l, split sep s = x :: l.
Proof.
  induction s as [| c s (x & l & IH)]; simpl.
  - eexists; eexists; reflexivity.
  - destruct (Ascii.eqb c sep); [eexists; eexists; reflexivity |].
    rewrite IH. eexists; eexists; reflexivity.
Qed.

Lemma split_items_have_no_sep (sep : ascii) (s x : string) :
  In x (split sep s) -> str_contains_char sep x = false.
Proof.
  revert x. induction s as [| c s IH]; simpl; intros x H.
  - destruct H as [<- | []]. reflexivity.
  - destruct (Ascii.eqb c sep) eqn:E.
    + destruct H as [<- | H]; [reflexivity | apply IH; exact H].
    + destruct (split_cons sep s) as (y & l & Hs). rewrite Hs in H, IH.
      destruct H as [<- | H].
      * simpl. rewrite Ascii.eqb_sym, E. apply IH. left. reflexivity.
      * apply IH. right. exact H.
Qed.

Lemma join_split (s : string) : join " " (split SPACE s) = s.
Proof.
  unfold join. induction s as [| c s IH]; [reflexivity |].
  simpl split. destruct (split_cons SPACE s) as (y & l & Hs).
  destruct (Ascii.eqb c SPACE) eqn:E.
  - apply Ascii.eqb_eq in E. subst c. rewrite Hs in *. simpl. simpl in IH.
    rewrite IH. reflexivity.
  - rewrite Hs in *. simpl. simpl in IH. destruct l; simpl; rewrite <- IH; reflexivity.
Qed.

(** X14. The scope list of a server is never empty; for a header that
    is not empty no scope in it holds a space, and joining the list with
    spaces gives the header back, so no character of the header is lost
    or changed (two spaces in a row give an empty scope). *)
Theorem scope_list_shape :
  (forall s, CalculatorServer.get_user_scopes s <> []
             /\ WeatherServer.get_user_scopes s <> [])
  /\ (forall s x,
        s <> EmptyString ->
        In x (CalculatorServer.get_user_scopes s)
        \/ In x (WeatherServer.get_user_scopes s) ->
        str_contains_char SPACE x = false)
  /\ (forall s,
        s <> EmptyString ->
        join " " (CalculatorServer.get_user_scopes s) = s
        /\ join " " (WeatherServer.get_user_scopes s) = s).
Proof.
  split; [| split].
  - intros s. unfold CalculatorServer.get_user_scopes, WeatherServer.get_user_scopes.
    destruct s as [| c s]; [split; discriminate |].
    cbn [truthy String.eqb negb].
    destruct (split_cons SPACE (String c s)) as (y & l & ->). split; discriminate.
  - intros s x N H.
    unfold CalculatorServer.get_user_scopes, WeatherServer.get_user_scopes in H.
    destruct s as [| c s]; [contradiction |].
    cbn [truthy String.eqb negb] in H.
    destruct H as [H | H]; exact (split_items_have_no_sep SPACE _ x H).
  - intros s N.
    unfold CalculatorServer.get_user_scopes, WeatherServer.get_user_scopes.
    destruct s as [| c s]; [contradiction |].
    cbn [truthy String.eqb negb]. split; apply join_split.
Qed.

(** X15. Holding more scopes never loses access: on both servers and
    for any required scope, a check that passes on a list passes on
    every list that contains its scopes, in any order and with any
    repetition. *)
Theorem scope_check_monotone (required : string) (scopes scopes' : list string) :
  incl scopes scopes' ->
  (CalculatorServer.check_scope scopes required = true ->
   CalculatorServer.check_scope scopes' required = true)
  /\ (WeatherServer.check_scope scopes required = true ->
      WeatherServer.check_scope scopes' required = true).
Proof.
  intros I.
  assert (M : forall x, str_in x scopes = true -> str_in x scopes' = true).
  { intros x H. apply str_in_In. apply I. apply str_in_In. exact H. }
  unfold CalculatorServer.check_scope, WeatherServer.check_scope. split.
  - destruct (String.eqb required "calculator:read"); [| apply M].
    rewrite !orb_true_iff. intros [[H | H] | H]; apply M in H; tauto.
  - destruct (String.eqb required "weather:read"); [| apply M].
    rewrite !orb_true_iff. intros [H | H]; apply M in H; tauto.
Qed.

(** ** The envelope's version *)

(** X17. The handlers never read the request's [jsonrpc] member: the
    answer is the same under any version string, and every envelope
    they return, the parse error included, says [2.0]. *)
Theorem jsonrpc_version_is_not_read :
  (forall rt r h v,
      CalculatorServer.mcp_endpoint rt (Ok (with_jsonrpc r v)) h
      = CalculatorServer.mcp_endpoint rt (Ok r) h
      /\ WeatherServer.mcp_endpoint rt (Ok (with_jsonrpc r v)) h
         = WeatherServer.mcp_endpoint rt (Ok r) h)
  /\ (forall rt parsed h resp,
        CalculatorServer.mcp_endpoint rt parsed h = Ok resp
        \/ WeatherServer.mcp_endpoint rt parsed h = Ok resp ->
        envelope_get (content resp) "jsonrpc" = Some (JStr "2.0")).
Proof.
  split; [intros rt r h v; split; reflexivity |].
  intros rt parsed h resp [H | H]; revert H.
  - destruct parsed as [r | e];
      [| unfold CalculatorServer.mcp_endpoint; intros H; injection H as <-; reflexivity].
    destruct (String.eqb (method r) "tools/call") eqn:Hc.
    + apply String.eqb_eq in Hc. rewrite (calc_tools_call rt r h Hc).
      destruct (CalculatorServer.check_scope _ _); cbn [negb];
        [| intros H; injection H as <-; reflexivity].
      destruct (CalculatorServer.execute_tool _ _ _) as [[text |] | e];
        intros H; [| | discriminate H]; injection H as <-; reflexivity.
    + unfold CalculatorServer.mcp_endpoint. rewrite Hc.
      destruct (String.eqb (method r) "tools/list");
        [intros H; injection H as <-; reflexivity |].
      destruct (String.eqb (method r) "initialize");
        intros H; injection H as <-; reflexivity.
  - destruct parsed as [r | e];
      [| unfold WeatherServer.mcp_endpoint; intros H; injection H as <-; reflexivity].
    destruct (String.eqb (method r) "tools/call") eqn:Hc.
    + apply String.eqb_eq in Hc. rewrite (wx_tools_call rt r h Hc).
      destruct (WeatherServer.check_scope _ _); cbn [negb];
        [| intros H; injection H as <-; reflexivity].
      destruct (WeatherServer.execute_tool _ _ _) as [[text |] | e];
        intros H; [| | discriminate H]; injection H as <-; reflexivity.
    + unfold WeatherServer.mcp_endpoint. rewrite Hc.
      destruct (String.eqb (method r) "tools/list");
        [intros H; injection H as <-; reflexivity |].
      destruct (String.eqb (method r) "initialize");
        intros H; injection H as <-; reflexivity.
Qed.

(** ** The one tool that can fail *)

(** X18. Unlike division by zero and negative square roots, an error
    of [math.pow] is not reported as text: a [power] call with
    sufficient scope and arguments that coerce is answered with a result
    when [math.pow] returns, and lets the exception out of the handler
    when [math.pow] raises. *)
Theorem power_errors_leave_the_handler
    (rt : Runtime) (r : JsonRpcRequest) (h : Headers) (base exponent : float) :
  method r = "tools/call" ->
  param_name r = JStr "power" ->
  CalculatorServer.check_scope (CalculatorServer.effective_scopes h)
                               "calculator:read" = true ->
  bind (py_get (param_arguments r) "base" (JInt 0)) (py_float rt) = Ok base ->
  bind (py_get (param_arguments r) "exponent" (JInt 0)) (py_float rt) = Ok exponent ->
  (forall e, math_pow rt base exponent = Raise e ->
             CalculatorServer.mcp_endpoint rt (Ok r) h = Raise e)
  /\ (forall v, math_pow rt base exponent = Ok v ->
                exists text,
                  CalculatorServer.mcp_endpoint rt (Ok r) h
                  = Ok (return_dict
                          (rpc_result (json_of_id (id r))
                             (tool_result text
                                (header_default "anonymous" (X_User_Sub h))
                                (header_default EmptyString (X_User_Email h)))))).
Proof.
  intros Hm Hn Hs Hb He.
  rewrite (calc_tools_call rt r h Hm), Hs, Hn. cbn [negb].
  unfold CalculatorServer.execute_tool.
  simpl (str_is _ _). cbv iota.
  rewrite Hb. cbn [bind]. rewrite He. cbn [bind].
  unfold CalculatorServer.calculate_power.
  split; intros x Hx; rewrite Hx; cbn [bind]; [reflexivity | eexists; reflexivity].
Qed.

(** ** The further properties on concrete requests *)

Import Samples Network.


Lemma numeric_arguments_never_crash_witness :
  exists text,
    CalculatorServer.mcp_endpoint
      demo_runtime
      (Ok (tools_call 9 "multiply" (JObj [("a", JBool true); ("b", JInt (-3))])))
      no_headers
    = Ok (return_dict (rpc_result (JInt 9) (tool_result text "anonymous" EmptyString))).
Proof.
  refine (numeric_arguments_never_crash
            demo_runtime
            (tools_call 9 "multiply" (JObj [("a", JBool true); ("b", JInt (-3))]))
            no_headers [("a", JBool true); ("b", JInt (-3))] "multiply"
            eq_refl eq_refl eq_refl _ eq_refl _).
  - right. right. left. reflexivity.
  - intros k v. cbn [dict_get].
    destruct (String.eqb k "a"); [intros E; injection E as <-; reflexivity |].
    destruct (String.eqb k "b"); [intros E; injection E as <-; reflexivity |].
    intros E. discriminate E.
Defined.

Lemma scope_check_monotone_witness :
  WeatherServer.check_scope ["profile"; "weather-scope"; "openid"] "weather:read" = true.
Proof.
  refine (proj2 (scope_check_monotone "weather:read" ["weather-scope"]
                                      ["profile"; "weather-scope"; "openid"] _)
                eq_refl).
  intros x [<- | []]. right. left. reflexivity.
Defined.

Lemma power_errors_leave_the_handler_witness :
  CalculatorServer.mcp_endpoint
    demo_runtime
    (Ok (tools_call 4 "power" (JObj [("base", JInt 0); ("exponent", JInt (-1))])))
    no_headers
  = Raise (ValueError "math domain error").
Proof.
  exact (proj1 (power_errors_leave_the_handler
                  demo_runtime
                  (tools_call 4 "power" (JObj [("base", JInt 0); ("exponent", JInt (-1))]))
                  no_headers (float_of_Z 0) (float_of_Z (-1))
                  eq_refl eq_refl eq_refl eq_refl eq_refl)
               (ValueError "math domain error") eq_refl).
Defined.

End DispatchExtras.

(* ================================================================== *)
(** * From the gateway to the resource servers                         *)
(* ================================================================== *)

Module EndToEnd.
Import Py PyFacts JsonRpc AuthService AuthServiceSpec DispatchSpec.

(** X16. A token that introspection reports active, with well-formed
    claims and no [scope] claim, is answered 200 with an empty
    [X-User-Scopes] header; and a resource server that receives that
    header value falls back to its own default scope, so the token passes
    the scope check of both servers and its [tools/call] is never
    answered [Insufficient permissions]. *)
Theorem scopeless_token_gets_default_scope
    (rt : Runtime) (KEYCLOAK_URL KEYCLOAK_REALM : string)
    (introspect_token : string -> result json)
    (token : string) (d : dict) (realm_access : json)
    (sub email : string) (roles : list string) :
  introspect_token token = Ok (JObj d) ->
  dict_get d "active" = Some (JBool true) ->
  dict_get d "scope" = None ->
  py_get (JObj d) "sub" (JStr EmptyString) = Ok (JStr sub) ->
  py_get (JObj d) "email" (JStr EmptyString) = Ok (JStr email) ->
  py_get (JObj d) "realm_access" (JObj []) = Ok realm_access ->
  py_get realm_access "roles" (JArr []) = Ok (JArr (map JStr roles)) ->
  header_safe sub = true ->
  header_safe email = true ->
  header_safe (join "," roles) = true ->
  exists resp,
    verify_token rt KEYCLOAK_URL KEYCLOAK_REALM introspect_token
                 (Some ("Bearer " ++ token)) = (Ok resp, [token])
    /\ status_code resp = 200%Z
    /\ header (headers resp) "X-User-Scopes" = Some EmptyString
    /\ forall h : Headers,
         X_User_Scopes h = header (headers resp) "X-User-Scopes" ->
         CalculatorServer.check_scope (CalculatorServer.effective_scopes h)
                                      "calculator:read" = true
         /\ WeatherServer.check_scope (WeatherServer.effective_scopes h)
                                       "weather:read" = true
         /\ forall rt' r resp',
              method r = "tools/call" ->
              (CalculatorServer.mcp_endpoint rt' (Ok r) h = Ok resp' ->
               content resp' <> ServerInfo.denied (id r) "calculator:read")
              /\ (WeatherServer.mcp_endpoint rt' (Ok r) h = Ok resp' ->
                  content resp' <> ServerInfo.denied (id r) "weather:read").
Proof.
  intros Hi Ha Hd Hsub Hemail Hra Hroles Ss Se Sr.
  exists (authorized sub email (join "," roles) EmptyString).
  split; [| split; [reflexivity | split; [reflexivity |]]].
  - unfold verify_token. rewrite startswith_bearer, str_drop_bearer. cbn [negb].
    unfold introspect_and_authorize.
    rewrite Hi. cbn [bind]. cbn [py_get] in *. rewrite Ha. cbn [bind truthy negb].
    rewrite Hd.
    injection Hsub as Hsub. injection Hemail as Hemail. injection Hra as Hra.
    rewrite Hsub, Hemail, Hra. cbn [bind].
    destruct realm_access; try discriminate Hroles.
    cbn [py_get] in *. injection Hroles as Hroles. rewrite Hroles. cbn [bind].
    rewrite set_header_ok by exact Ss. cbn [bind].
    rewrite set_header_ok by exact Se. cbn [bind].
    unfold py_join. rewrite join_items_strs. cbn [bind].
    rewrite set_header_ok by exact Sr. cbn [bind].
    rewrite set_header_ok by reflexivity. cbn [bind].
    reflexivity.
  - intros h Hh.
    assert (E : X_User_Scopes h = Some EmptyString) by (rewrite Hh; reflexivity).
    assert (Cs : CalculatorServer.check_scope (CalculatorServer.effective_scopes h)
                                               "calculator:read" = true)
      by (rewrite calc_effective_scopes, E; reflexivity).
    assert (Ws : WeatherServer.check_scope (WeatherServer.effective_scopes h)
                                            "weather:read" = true)
      by (rewrite wx_effective_scopes, E; reflexivity).
    split; [exact Cs |]. split; [exact Ws |].
    intros rt' r resp' Hm. split.
    + rewrite (calc_tools_call rt' r h Hm), Cs. cbn [negb].
      destruct (CalculatorServer.execute_tool _ _ _) as [[text |] | e];
        intros H; [| | discriminate H]; injection H as <-;
        intros C; discriminate C.
    + rewrite (wx_tools_call rt' r h Hm), Ws. cbn [negb].
      destruct (WeatherServer.execute_tool _ _ _) as [[text |] | e];
        intros H; [| | discriminate H]; injection H as <-;
        intros C; discriminate C.
Qed.

Lemma scopeless_token_gets_default_scope_witness :
  exists resp,
    verify_token Samples.demo_runtime Samples.demo_url Samples.demo_realm
                 Network.introspect_no_scope (Some "Bearer abc") = (Ok resp, ["abc"])
    /\ status_code resp = 200%Z
    /\ header (headers resp) "X-User-Scopes" = Some EmptyString
    /\ CalculatorServer.check_scope
         (CalculatorServer.effective_scopes (Network.scopes_header EmptyString))
         "calculator:read" = true
    /\ WeatherServer.check_scope
         (WeatherServer.effective_scopes (Network.scopes_header EmptyString))
         "weather:read" = true.
Proof.
  destruct (scopeless_token_gets_default_scope
              Samples.demo_runtime Samples.demo_url Samples.demo_realm
              Network.introspect_no_scope "abc"
              [("active", JBool true);
               ("sub", JStr "u-42");
               ("email", JStr "ada@example.org");
               ("realm_access", JObj [("roles", JArr [JStr "user"])])]
              (JObj [("roles", JArr [JStr "user"])])
              "u-42" "ada@example.org" ["user"]
              eq_refl eq_refl eq_refl eq_refl eq_refl eq_refl eq_refl
              eq_refl eq_refl eq_refl)
    as (resp & V & S & Hs & F).
  exists resp. split; [exact V |]. split; [exact S |]. split; [exact Hs |].
  destruct (F (Network.scopes_header EmptyString)) as (C & W & _).
  - rewrite Hs. reflexivity.
  - split; [exact C | exact W].
Defined.

End EndToEnd.
